(** * access_py_telemetry: the API handler, the session identifier and the
      delivery bridge of [src/access_py_telemetry/api.py]

    A shallow embedding of [ApiHandler], [SessionID], [send_telemetry] and
    [send_in_loop].  The dictionaries the handler keeps are finite maps
    ([gmap]), whose equality is the order-insensitive [==] of [dict]; a dict
    that is passed as an argument is held with its items in insertion order,
    the order in which it is iterated; exceptions are values of [exn]
    threaded through a state-and-error monad in which, as in Python, the
    mutations made before a [raise] persist. *)

From Stdlib Require Import ZArith List Ascii String.
From stdpp Require Import gmap strings list fin_maps pretty.

Set Warnings "-register-all".
Local Open Scope string_scope.

(** ** hashlib.sha256 (FIPS 180-4), on 32-bit words held in [Z] *)

Module SHA256.
Local Open Scope Z_scope.

Definition wrap32 (x : Z) : Z := x mod 2 ^ 32.
Definition add32 (x y : Z) : Z := wrap32 (x + y).
Definition rotr (n x : Z) : Z :=
  wrap32 (Z.lor (Z.shiftr x n) (Z.shiftl x (32 - n))).
Definition shr (n x : Z) : Z := Z.shiftr x n.

Definition Ch (x y z : Z) : Z :=
  Z.lxor (Z.land x y) (Z.land (Z.lxor x 0xffffffff) z).
Definition Maj (x y z : Z) : Z :=
  Z.lxor (Z.lxor (Z.land x y) (Z.land x z)) (Z.land y z).
Definition bsig0 (x : Z) : Z := Z.lxor (Z.lxor (rotr 2 x) (rotr 13 x)) (rotr 22 x).
Definition bsig1 (x : Z) : Z := Z.lxor (Z.lxor (rotr 6 x) (rotr 11 x)) (rotr 25 x).
Definition ssig0 (x : Z) : Z := Z.lxor (Z.lxor (rotr 7 x) (rotr 18 x)) (shr 3 x).
Definition ssig1 (x : Z) : Z := Z.lxor (Z.lxor (rotr 17 x) (rotr 19 x)) (shr 10 x).

(** FIPS 180-4 defines its constants from the first primes: a round
    constant is the first 32 bits of the fractional part of a cube root, a
    word of the initial hash value those of a square root. *)
Fixpoint primes_from (fuel : nat) (k : Z) (count : nat) (found : list Z) : list Z :=
  match fuel, count with
  | S fuel', S count' =>
      if forallb (fun p => negb (k mod p =? 0)) found
      then primes_from fuel' (k + 1) count' (found ++ [k])
      else primes_from fuel' (k + 1) count found
  | _, _ => found
  end.

Definition first_primes (count : nat) : list Z := primes_from 400 2 count [].

Definition cube_root (x : Z) : Z :=
  fold_left (fun r i => let c := Z.lor r (Z.shiftl 1 (Z.of_nat i)) in
                        if c * c * c <=? x then c else r)
            (rev (seq 0 40)) 0.

Definition round_constants : list Z :=
  Eval vm_compute in
    map (fun p => wrap32 (cube_root (p * 2 ^ 96))) (first_primes 64).

(** The eight working variables a..h, also the shape of a hash value. *)
Record regs := Regs { ra : Z; rb : Z; rc : Z; rd : Z; re : Z; rf : Z; rg : Z; rh : Z }.

Definition regs_of_list (l : list Z) : regs :=
  Regs (nth 0 l 0) (nth 1 l 0) (nth 2 l 0) (nth 3 l 0)
       (nth 4 l 0) (nth 5 l 0) (nth 6 l 0) (nth 7 l 0).

Definition initial_hash : regs :=
  Eval vm_compute in
    regs_of_list (map (fun p => wrap32 (Z.sqrt (p * 2 ^ 64))) (first_primes 8)).

(** Padding: the byte 0x80, zero bytes up to 56 modulo 64, then the bit
    length as a 64-bit big-endian integer. *)
Definition be_bytes (count : nat) (x : Z) : list Z :=
  map (fun i => Z.land (Z.shiftr x (8 * Z.of_nat i)) 0xff) (rev (seq 0 count)).

Definition pad (msg : list Z) : list Z :=
  let len := Z.of_nat (length msg) in
  let zeros := Z.to_nat ((55 - len) mod 64) in
  msg ++ 0x80 :: repeat 0 zeros ++ be_bytes 8 (8 * len).

Fixpoint be_words (bytes : list Z) : list Z :=
  match bytes with
  | b0 :: b1 :: b2 :: b3 :: rest =>
      (b0 * 2 ^ 24 + b1 * 2 ^ 16 + b2 * 2 ^ 8 + b3) :: be_words rest
  | _ => []
  end.

Fixpoint chunks (fuel : nat) (words : list Z) : list (list Z) :=
  match fuel, words with
  | S fuel', _ :: _ => firstn 16 words :: chunks fuel' (skipn 16 words)
  | _, _ => []
  end.

(** The message schedule W_0..W_63 of one block. *)
Fixpoint extend (count : nat) (ws : list Z) : list Z :=
  match count with
  | O => ws
  | S count' =>
      let t := length ws in
      let at_ i := nth (t - i) ws 0 in
      extend count'
        (ws ++ [add32 (add32 (ssig1 (at_ 2%nat)) (at_ 7%nat))
                      (add32 (ssig0 (at_ 15%nat)) (at_ 16%nat))])
  end.

Definition step (r : regs) (kw : Z * Z) : regs :=
  let t1 := add32 (add32 (add32 (rh r) (bsig1 (re r)))
                         (add32 (Ch (re r) (rf r) (rg r)) (fst kw))) (snd kw) in
  let t2 := add32 (bsig0 (ra r)) (Maj (ra r) (rb r) (rc r)) in
  Regs (add32 t1 t2) (ra r) (rb r) (rc r) (add32 (rd r) t1) (re r) (rf r) (rg r).

Definition compress (h : regs) (block : list Z) : regs :=
  let r := fold_left step (combine round_constants (extend 48 block)) h in
  Regs (add32 (ra h) (ra r)) (add32 (rb h) (rb r)) (add32 (rc h) (rc r))
       (add32 (rd h) (rd r)) (add32 (re h) (re r)) (add32 (rf h) (rf r))
       (add32 (rg h) (rg r)) (add32 (rh h) (rh r)).

Definition digest (msg : list Z) : regs :=
  let words := be_words (pad msg) in
  fold_left compress (chunks (length words) words) initial_hash.

(** [hexdigest]: two lower-case hexadecimal digits per byte. *)
Definition hex_alphabet : list ascii := list_ascii_of_string "0123456789abcdef".

Definition hex_digit (x : Z) : ascii :=
  nth (Z.to_nat (x mod 16)) hex_alphabet "0"%char.

Definition hex_word (x : Z) : list ascii :=
  map (fun i => hex_digit (Z.shiftr x (4 * Z.of_nat i))) (rev (seq 0 8)).

Definition hex_regs (r : regs) : list ascii :=
  hex_word (ra r) ++ hex_word (rb r) ++ hex_word (rc r) ++ hex_word (rd r) ++
  hex_word (re r) ++ hex_word (rf r) ++ hex_word (rg r) ++ hex_word (rh r).

Definition bytes_of_string (s : string) : list Z :=
  map (fun c => Z.of_N (N_of_ascii c)) (list_ascii_of_string s).

(** [hashlib.sha256(s.encode()).hexdigest()]; a [string] is its UTF-8 bytes. *)
Definition sha256_hexdigest (s : string) : string :=
  string_of_list_ascii (hex_regs (digest (bytes_of_string s))).

End SHA256.

(** ** Python values *)

(** Dictionary keys: [str], and [int] as one kind of key that is not a [str]. *)
Inductive pykey :=
| KStr (s : string)
| KInt (n : Z).

Global Instance pykey_eq_dec : EqDecision pykey.
Proof. solve_decision. Defined.

Global Instance pykey_countable : Countable pykey.
Proof.
  refine (inj_countable'
            (fun k => match k with KStr s => inl s | KInt n => inr n end)
            (fun x => match x with inl s => KStr s | inr n => KInt n end) _).
  intros []; reflexivity.
Defined.

Global Instance KStr_inj : Inj (=) (=) KStr.
Proof. intros s1 s2 [=]. assumption. Qed.

(** A [str] is held as the bytes of its UTF-8 form, the bytes that
    [str.encode()] gives.  A [dict] is held as the items of the display
    that makes it, [{k1: v1, ..., kn: vn}], in the order they are written,
    which is the order the dict keeps: a key written twice keeps its first
    place and its last value. *)
Inductive pyval :=
| PyNone
| PyBool (b : bool)
| PyInt (n : Z)
| PyStr (s : string)
| PyList (items : list pyval)
| PyTuple (items : list pyval)
| PyDict (items : list (pykey * pyval)).

(** A telemetry record, and any other [dict] with [str] keys. *)
Abbreviation record := (gmap string pyval).

Definition key_value (k : pykey) : pyval :=
  match k with KStr s => PyStr s | KInt n => PyInt n end.

(** The keys of a dict, in the order the dict keeps them. *)
Fixpoint dict_keys (items : list (pykey * pyval)) : list pykey :=
  match items with
  | [] => []
  | (k, _) :: rest => k :: filter (fun k' => k' <> k) (dict_keys rest)
  end.

(** ** Exceptions, output and the outside world *)

(** The argument a [KeyError] is raised with. *)
Inductive key_error_arg :=
| MissingKey (k : string)
    (* raised by [dict.pop(k)] on an absent key *)
| EndpointNotFound (service_name : string)
    (* f"Endpoint for '{service_name}' not found" *)
| EndpointNotFoundIn (service_name : string) (eps : gmap string string).
    (* f"Endpoint for '{service_name}' not found in {self.endpoints}" *)

Inductive exn :=
| KeyError (arg : key_error_arg)
| ValidationError               (* pydantic.ValidationError *)
| RuntimeError                  (* asyncio: no running event loop *)
| TimeoutError                  (* concurrent.futures.TimeoutError *)
| RequestError (msg : string)   (* httpx.RequestError: the transport failed *)
| HTTPStatusError (status : Z)  (* httpx.HTTPStatusError, from raise_for_status *)
| OtherException (msg : string) (* any other subclass of Exception *).

Inductive result (A : Type) :=
| Ok (a : A)
| Raise (e : exn).
Arguments Ok {A} a.
Arguments Raise {A} e.

(** What a coroutine object of [send_telemetry] holds. *)
Record Coroutine := { co_endpoint : string; co_data : record }.

(** The coroutine object [send_telemetry(endpoint, data)]. *)
Definition coroutine (endpoint : string) (data : record) : Coroutine :=
  {| co_endpoint := endpoint; co_data := data |}.

Inductive message :=
| PostingTelemetryTo (endpoint : string)
    (* f"Posting telemetry to {endpoint}" *)
| RequestFailed (e : exn)
    (* f"Request failed: {e}" *)
| CoroutineTookTooLong
    (* "The coroutine took too long to complete" *)
| CoroutineRaised (e : exn).
    (* f"The coroutine raised an exception: {exc}" *)

(** What the program itself prints, warns and posts, and the end of a task.
    What the interpreter reports of its own accord (an event loop left
    unclosed, a coroutine never awaited, when an abandoned loop is collected)
    is not an event of the program. *)
Inductive event :=
| Printed (m : message)                  (* print(m) *)
| RuntimeWarning (m : message)           (* warnings.warn(m, category=RuntimeWarning) *)
| Posted (url : string) (json : record)  (* POST url, JSON body,
                                            Content-Type: application/json *)
| TaskFinished (c : Coroutine) (r : result unit).
                                         (* a task of the running loop ended *)

(** [datetime.datetime], naive. *)
Record datetime := {
  year : nat; month : nat; day : nat;
  hour : nat; minute : nat; second : nat; microsecond : nat
}.

Inductive post_outcome :=
| PostRaises (e : exn)        (* [await client.post(...)] raised *)
| PostResponds (status : Z).  (* it returned a response with this status code *)

(** What the code reads from outside the process. *)
Record World := {
  getuser : string;
    (* getpass.getuser() *)
  now : nat -> datetime;
    (* the n-th reading of datetime.datetime.now() *)
  http_post : string -> record -> post_outcome;
    (* client.post(endpoint, json=data, headers=headers) *)
  completes_after : Coroutine -> option N
    (* milliseconds after which a coroutine handed to
       run_coroutine_threadsafe has run to its end on the transient loop, if
       it ever does.  As the source stands nothing runs that loop, which is
       the value None; the results below hold for every value. *)
}.

(** ** State *)

Record ApiHandler := {
  _server_url : string;
  endpoints : gmap string string;
  _extra_fields : gmap string (gmap string pyval);
  _pop_fields : gmap string (list string);
  _last_record : option (gmap string pyval)   (* None: attribute not yet set *)
}.

(** The one [SessionID] object; [value] is None until [hasattr(self, "value")]. *)
Record SessionID := { value : option string }.

Record State := {
  api : ApiHandler;                        (* the singleton ApiHandler *)
  SessionID_instance : option SessionID;   (* SessionID._instance *)
  clock_reads : nat;                       (* readings of the clock so far *)
  running_loop : option (list Coroutine);
    (* the tasks created on the loop running in this thread, if one runs *)
  idle_loops : list (list Coroutine);
    (* loops made by new_event_loop and never run, with what is queued *)
  trace : list event;                      (* output, oldest first *)
  waited_ms : N                            (* time the caller spent blocked *)
}.

Definition SERVER_URL : string :=
  "https://tracking-services-d6c2fd311c12.herokuapp.com".

(** The class body of [ApiHandler] over the endpoints read from config.yaml. *)
Definition new_handler (ENDPOINTS : gmap string string) : ApiHandler :=
  {| _server_url := SERVER_URL;
     endpoints := ENDPOINTS;
     _extra_fields := (fun _ => ∅) <$> ENDPOINTS;
     _pop_fields := ∅;
     _last_record := None |}.

Definition new_state (ENDPOINTS : gmap string string)
    (loop : option (list Coroutine)) : State :=
  {| api := new_handler ENDPOINTS;
     SessionID_instance := None;
     clock_reads := 0;
     running_loop := loop;
     idle_loops := [];
     trace := [];
     waited_ms := 0 |}.

Definition with_api (f : ApiHandler -> ApiHandler) (st : State) : State :=
  {| api := f (api st);
     SessionID_instance := SessionID_instance st;
     clock_reads := clock_reads st;
     running_loop := running_loop st;
     idle_loops := idle_loops st;
     trace := trace st;
     waited_ms := waited_ms st |}.

Definition set_extra_fields (v : gmap string (gmap string pyval))
    (h : ApiHandler) : ApiHandler :=
  {| _server_url := _server_url h;
     endpoints := endpoints h;
     _extra_fields := v;
     _pop_fields := _pop_fields h;
     _last_record := _last_record h |}.

Definition set_pop_fields (v : gmap string (list string))
    (h : ApiHandler) : ApiHandler :=
  {| _server_url := _server_url h;
     endpoints := endpoints h;
     _extra_fields := _extra_fields h;
     _pop_fields := v;
     _last_record := _last_record h |}.

Definition set_last_record (v : option (gmap string pyval))
    (h : ApiHandler) : ApiHandler :=
  {| _server_url := _server_url h;
     endpoints := endpoints h;
     _extra_fields := _extra_fields h;
     _pop_fields := _pop_fields h;
     _last_record := v |}.

Definition set_server_url (url : string) (h : ApiHandler) : ApiHandler :=
  {| _server_url := url;
     endpoints := endpoints h;
     _extra_fields := _extra_fields h;
     _pop_fields := _pop_fields h;
     _last_record := _last_record h |}.

Definition set_session (v : option SessionID) (st : State) : State :=
  {| api := api st;
     SessionID_instance := v;
     clock_reads := clock_reads st;
     running_loop := running_loop st;
     idle_loops := idle_loops st;
     trace := trace st;
     waited_ms := waited_ms st |}.

Definition tick (st : State) : State :=
  {| api := api st;
     SessionID_instance := SessionID_instance st;
     clock_reads := S (clock_reads st);
     running_loop := running_loop st;
     idle_loops := idle_loops st;
     trace := trace st;
     waited_ms := waited_ms st |}.

Definition set_running_loop (v : option (list Coroutine)) (st : State) : State :=
  {| api := api st;
     SessionID_instance := SessionID_instance st;
     clock_reads := clock_reads st;
     running_loop := v;
     idle_loops := idle_loops st;
     trace := trace st;
     waited_ms := waited_ms st |}.

Definition set_idle_loops (v : list (list Coroutine)) (st : State) : State :=
  {| api := api st;
     SessionID_instance := SessionID_instance st;
     clock_reads := clock_reads st;
     running_loop := running_loop st;
     idle_loops := v;
     trace := trace st;
     waited_ms := waited_ms st |}.

Definition log (ev : event) (st : State) : State :=
  {| api := api st;
     SessionID_instance := SessionID_instance st;
     clock_reads := clock_reads st;
     running_loop := running_loop st;
     idle_loops := idle_loops st;
     trace := (trace st ++ [ev])%list;
     waited_ms := waited_ms st |}.

Definition block (ms : N) (st : State) : State :=
  {| api := api st;
     SessionID_instance := SessionID_instance st;
     clock_reads := clock_reads st;
     running_loop := running_loop st;
     idle_loops := idle_loops st;
     trace := trace st;
     waited_ms := (waited_ms st + ms)%N |}.

(** ** The monad: state, and exceptions that keep the state reached *)

Definition M (A : Type) : Type := State -> result A * State.

Definition ret {A} (a : A) : M A := fun st => (Ok a, st).
Definition raise {A} (e : exn) : M A := fun st => (Raise e, st).
Definition bind {A B} (m : M A) (k : A -> M B) : M B :=
  fun st => match m st with
            | (Ok a, st') => k a st'
            | (Raise e, st') => (Raise e, st')
            end.
Definition lift {A} (r : result A) : M A := fun st => (r, st).
Definition gets {A} (f : State -> A) : M A := fun st => (Ok (f st), st).
Definition modify (f : State -> State) : M unit := fun st => (Ok tt, f st).

(** [try: body / except C1: h1 / except C2: h2 ...]: the first clause whose
    classes contain the exception handles it. *)
Fixpoint handle {A} (clauses : list ((exn -> bool) * (exn -> M A))) (e : exn) : M A :=
  match clauses with
  | [] => raise e
  | (caught, handler) :: rest => if caught e then handler e else handle rest e
  end.

Definition try_except {A} (body : M A)
    (clauses : list ((exn -> bool) * (exn -> M A))) : M A :=
  fun st => match body st with
            | (Raise e, st') => handle clauses e st'
            | r => r
            end.

Declare Scope py_scope.
Delimit Scope py_scope with py.
Notation "x <- m ;; k" := (bind m (fun x => k))
  (at level 100, m at next level, right associativity) : py_scope.
Notation "m ;; k" := (bind m (fun _ => k))
  (at level 100, right associativity) : py_scope.
Local Open Scope py_scope.

(** ** pydantic.validate_call

    The decorated function is called with the validated arguments, not
    with the caller's own objects. *)

(** A parameter annotated [dict[str, Any]]: the argument must be a [dict]
    whose keys are all [str]; the body receives a dict of the same items,
    here as a map from its keys (of two items with one key the later one
    counts). *)
Definition str_keyed_items (items : list (pykey * pyval)) : option (list (string * pyval)) :=
  mapM (fun kv => match fst kv with
                  | KStr s => Some (s, snd kv)
                  | KInt _ => None
                  end) items.

Definition validate_dict_str_any (v : pyval) : M (gmap string pyval) :=
  match v with
  | PyDict items =>
      match str_keyed_items items with
      | Some items => ret (list_to_map (reverse items))
      | None => raise ValidationError
      end
  | _ => raise ValidationError
  end.

(** A parameter annotated [Iterable[str]]: any iterable argument passes, and
    the body receives a [ValidatorIterator], a lazy iterator over the
    argument's elements that validates each one as a [str] when it is
    consumed.  Iterating a [str] yields its characters, one str for each
    code point; iterating a [dict] yields its keys in insertion order. *)
Inductive iterable_of_str :=
| StrObject (s : string)
    (* a plain str *)
| ListObject (l : list string)
    (* a plain list of str *)
| ValidatorIterator (elements : list pyval).
    (* pydantic's wrapper around the caller's iterable *)

(** A byte 10xxxxxx continues the code point that the bytes before it
    began. *)
Definition is_continuation (c : ascii) : bool :=
  match c with
  | Ascii _ _ _ _ _ _ false true => true
  | _ => false
  end.

(** The code points of a str, from its end: the continuation bytes that
    still wait for their first byte, and the code points behind them. *)
Fixpoint code_points (s : string) : string * list string :=
  match s with
  | EmptyString => (EmptyString, [])
  | String c rest =>
      let (pending, done) := code_points rest in
      if is_continuation c then (String c pending, done)
      else (EmptyString, String c pending :: done)
  end.

(** The one-character strings a [str] yields when it is iterated. *)
Definition characters (s : string) : list string :=
  let (pending, done) := code_points s in
  match pending with
  | EmptyString => done
  | _ => pending :: done   (* not the UTF-8 form of a str *)
  end.

Definition iter (v : pyval) : option (list pyval) :=
  match v with
  | PyList items | PyTuple items => Some items
  | PyStr s => Some (PyStr <$> characters s)
  | PyDict items => Some (key_value <$> dict_keys items)
  | PyNone | PyBool _ | PyInt _ => None
  end.

Definition validate_iterable_str (v : pyval) : M iterable_of_str :=
  match iter v with
  | Some elements => ret (ValidatorIterator elements)
  | None => raise ValidationError
  end.

(** Consuming a [ValidatorIterator]: each element must be a [str]. *)
Fixpoint validated_strs (elements : list pyval) : M (list string) :=
  match elements with
  | [] => ret []
  | PyStr s :: rest => l <- validated_strs rest ;; ret (s :: l)
  | _ :: _ => raise ValidationError
  end.

(** [list(fields)] for what the body of [remove_fields] may hold. *)
Definition py_list (fields : iterable_of_str) : M (list string) :=
  match fields with
  | StrObject s => ret (characters s)
  | ListObject l => ret l
  | ValidatorIterator elements => validated_strs elements
  end.

(** ** ApiHandler *)

Section Api.

Variable w : World.

(** [add_extra_fields], under [@pydantic.validate_call]. *)
Definition add_extra_fields (service_name : string) (fields : pyval) : M unit :=
  fields <- validate_dict_str_any fields ;;
  eps <- gets (fun st => endpoints (api st)) ;;
  if decide (service_name ∈ dom eps) then
    modify (with_api (fun h =>
      set_extra_fields (<[service_name := fields]> (_extra_fields h)) h))
  else
    raise (KeyError (EndpointNotFound service_name)).

(** The [server_url] property and its setter. *)
Definition server_url : M string := gets (fun st => _server_url (api st)).

Definition set_url (url : string) : M unit :=
  modify (with_api (set_server_url url)).

(** The body of [remove_fields]. *)
Definition remove_fields_body (service : string) (fields : iterable_of_str) : M unit :=
  let fields := match fields with
                | StrObject s => ListObject [s]   (* isinstance(fields, str) *)
                | _ => fields
                end in
  fields <- py_list fields ;;
  modify (with_api (fun h =>
    set_pop_fields (<[service := fields]> (_pop_fields h)) h)).

(** [remove_fields], under [@pydantic.validate_call]. *)
Definition remove_fields (service : string) (fields : pyval) : M unit :=
  fields <- validate_iterable_str fields ;;
  remove_fields_body service fields.

(** *** SessionID *)

Definition zfill (width : nat) (s : string) : string :=
  string_of_list_ascii (repeat "0"%char (width - String.length s)) ++ s.

(** [datetime.isoformat()]: YYYY-MM-DDTHH:MM:SS.ffffff, without the fraction
    when [microsecond] is 0. *)
Definition isoformat (d : datetime) : string :=
  zfill 4 (pretty (year d)) ++ "-" ++ zfill 2 (pretty (month d)) ++ "-" ++
  zfill 2 (pretty (day d)) ++ "T" ++ zfill 2 (pretty (hour d)) ++ ":" ++
  zfill 2 (pretty (minute d)) ++ ":" ++ zfill 2 (pretty (second d)) ++
  (if Nat.eqb (microsecond d) 0 then ""
   else "." ++ zfill 6 (pretty (microsecond d))).

(** The string that is hashed: f"{login}_{timestamp}". *)
Definition session_str (login : string) (timestamp : datetime) : string :=
  login ++ "_" ++ isoformat timestamp.

(** [datetime.datetime.now()]. *)
Definition datetime_now : M datetime :=
  n <- gets clock_reads ;;
  modify tick ;;
  ret (now w n).

Definition create_session_id : M string :=
  let login := getuser w in
  timestamp <- datetime_now ;;
  ret (SHA256.sha256_hexdigest (session_str login timestamp)).

(** [SessionID.__get__], on the object bound to [SessionID._instance]. *)
Definition SessionID__get__ (self : SessionID) : M string :=
  match value self with
  | None =>
      v <- create_session_id ;;
      modify (set_session (Some {| value := Some v |})) ;;
      ret v
  | Some v => ret v
  end.

(** Evaluating [cls._instance]: [SessionID] defines [__get__], so an
    instance stored in the class attribute is a descriptor and the lookup
    returns what [__get__] returns; None is returned as it is. *)
Definition cls_instance : M pyval :=
  inst <- gets SessionID_instance ;;
  match inst with
  | None => ret PyNone
  | Some self => v <- SessionID__get__ self ;; ret (PyStr v)
  end.

(** [not x]. *)
Definition py_not (x : pyval) : bool :=
  match x with
  | PyNone => true
  | PyBool b => negb b
  | PyInt n => Z.eqb n 0
  | PyStr s => String.eqb s ""
  | PyList items | PyTuple items => match items with [] => true | _ => false end
  | PyDict items => match items with [] => true | _ => false end
  end.

(** [SessionID()]: what [__new__] returns is a [str], not an instance of
    the class, so [__init__] is not run. *)
Definition SessionID_new : M pyval :=
  inst <- cls_instance ;;
  (if py_not inst
   then modify (set_session (Some {| value := None |}))
   else ret tt) ;;
  cls_instance.

(** *** The telemetry record *)

(** [for field in fields: telemetry_data.pop(field)]. *)
Fixpoint pop_each (fields : list string) (telemetry_data : record) : result record :=
  match fields with
  | [] => Ok telemetry_data
  | field :: rest =>
      match telemetry_data !! field with
      | Some _ => pop_each rest (delete field telemetry_data)
      | None => Raise (KeyError (MissingKey field))
      end
  end.

Definition base_record (name function_name : string) (args kwargs session_id : pyval)
    : record :=
  <["name" := PyStr name]>
    (<["function" := PyStr function_name]>
      (<["args" := args]>
        (<["kwargs" := kwargs]>
          (<["session_id" := session_id]> ∅)))).

Definition _create_telemetry_record (service_name function_name : string)
    (args kwargs : pyval) : M record :=
  let name := getuser w in
  session_id <- SessionID_new ;;
  extra <- gets (fun st => default ∅ (_extra_fields (api st) !! service_name)) ;;
  (* {**base, **extra}: a key of both takes the value of [extra] *)
  let telemetry_data := extra ∪ base_record name function_name args kwargs session_id in
  pops <- gets (fun st => default [] (_pop_fields (api st) !! service_name)) ;;
  telemetry_data <- lift (pop_each pops telemetry_data) ;;
  modify (with_api (set_last_record (Some telemetry_data))) ;;
  ret telemetry_data.

(** *** Delivery *)

Definition is_success (status : Z) : bool :=
  (200 <=? status)%Z && (status <=? 299)%Z.

(** [response.raise_for_status()]. *)
Definition raise_for_status (status : Z) : M unit :=
  if is_success status then ret tt else raise (HTTPStatusError status).

(** [await client.post(endpoint, json=data, headers=headers)]. *)
Definition client_post (endpoint : string) (data : record) : M Z :=
  modify (log (Posted endpoint data)) ;;
  match http_post w endpoint data with
  | PostRaises e => raise e
  | PostResponds status => ret status
  end.

Definition is_request_or_status_error (e : exn) : bool :=
  match e with
  | RequestError _ | HTTPStatusError _ => true
  | _ => false
  end.

(** The coroutine [send_telemetry(endpoint, data)], run to its end. *)
Definition send_telemetry (endpoint : string) (data : record) : M unit :=
  try_except
    (modify (log (Printed (PostingTelemetryTo endpoint))) ;;
     response <- client_post endpoint data ;;
     raise_for_status response)
    [(is_request_or_status_error,
      fun e => modify (log (RuntimeWarning (RequestFailed e))))].

Definition run (c : Coroutine) : M unit :=
  send_telemetry (co_endpoint c) (co_data c).

(** [asyncio.get_running_loop()] followed by [loop.create_task(coro)]. *)
Definition create_task_on_running_loop (c : Coroutine) : M unit :=
  loop <- gets running_loop ;;
  match loop with
  | Some tasks => modify (set_running_loop (Some (tasks ++ [c])%list))
  | None => raise RuntimeError
  end.

(** [asyncio.new_event_loop()], [asyncio.set_event_loop(loop)] and
    [asyncio.run_coroutine_threadsafe(coro, loop)]: the coroutine is queued
    on a loop that is not running. *)
Definition run_coroutine_on_new_loop (c : Coroutine) : M unit :=
  modify (fun st => set_idle_loops (idle_loops st ++ [[c]])%list st).

(** [future.result(timeout)]: blocks until the coroutine has ended or the
    timeout has passed, whichever is first; returns or raises what the
    coroutine returned or raised, or raises TimeoutError. *)
Definition future_result (c : Coroutine) (timeout_ms : N) : M unit :=
  match completes_after w c with
  | Some t =>
      if (t <=? timeout_ms)%N
      then modify (block t) ;; run c
      else modify (block timeout_ms) ;; raise TimeoutError
  | None => modify (block timeout_ms) ;; raise TimeoutError
  end.

(** timeout=0.1, in milliseconds. *)
Definition timeout_ms : N := 100.

Definition is_RuntimeError (e : exn) : bool :=
  match e with RuntimeError => true | _ => false end.

Definition is_TimeoutError (e : exn) : bool :=
  match e with TimeoutError => true | _ => false end.

(** Every exception modelled here is a subclass of [Exception]. *)
Definition is_Exception (e : exn) : bool := true.

Definition send_in_loop (endpoint : string) (telemetry_data : record) : M unit :=
  let coro := coroutine endpoint telemetry_data in
  try_except
    (create_task_on_running_loop coro)
    [(is_RuntimeError,
      fun _ =>
        run_coroutine_on_new_loop coro ;;
        try_except
          (future_result coro timeout_ms)
          [(is_TimeoutError,
            fun _ => modify (log (Printed CoroutineTookTooLong)));
           (is_Exception,
            fun exc => modify (log (Printed (CoroutineRaised exc))))])].

Definition send_api_request (service_name function_name : string)
    (args kwargs : pyval) : M unit :=
  telemetry_data <- _create_telemetry_record service_name function_name args kwargs ;;
  eps <- gets (fun st => endpoints (api st)) ;;
  endpoint <- match eps !! service_name with
              | Some endpoint => ret endpoint
              | None => raise (KeyError (EndpointNotFoundIn service_name eps))
              end ;;
  url <- server_url ;;
  send_in_loop (url ++ endpoint) telemetry_data.

(** The running loop takes its next task and runs it to its end; what the
    task raised stays in the task. *)
Definition loop_step : M unit :=
  loop <- gets running_loop ;;
  match loop with
  | Some (c :: tasks) =>
      modify (set_running_loop (Some tasks)) ;;
      fun st => let (r, st') := run c st in
                (Ok tt, log (TaskFinished c r) st')
  | _ => ret tt
  end.

End Api.

(** ** Vocabulary of the statements *)

(** A [dict] with [str] keys, as a Python value. *)
Definition py_dict (m : gmap string pyval) : pyval :=
  PyDict (prod_map KStr id <$> map_to_list m).

(** The argument is a [dict] and every key of it is a [str]. *)
Definition str_keyed (v : pyval) : Prop :=
  match v with
  | PyDict items => forall k x, (k, x) ∈ items -> exists s, k = KStr s
  | _ => False
  end.

Definition is_KeyError (e : exn) : bool :=
  match e with KeyError _ => true | _ => false end.

Definition is_hex (c : ascii) : bool :=
  bool_decide (c ∈ SHA256.hex_alphabet).

(** What an operation leaves alone when it touches only the session
    identifier and the clock. *)
Definition same_but_session (st st' : State) : Prop :=
  api st' = api st /\ running_loop st' = running_loop st /\
  idle_loops st' = idle_loops st /\ trace st' = trace st /\
  waited_ms st' = waited_ms st.

(** The identifier computed at the clock reading a state is about to make. *)
Definition session_id_at (w : World) (st : State) : string :=
  SHA256.sha256_hexdigest (session_str (getuser w) (now w (clock_reads st))).

Definition cached (v : string) (st : State) : State :=
  set_session (Some {| value := Some v |}) st.

(** The record before any field is removed, and the fields to remove. *)
Definition built_record (w : World) (st : State) (service_name function_name : string)
    (args kwargs : pyval) (sid : string) : record :=
  default ∅ (_extra_fields (api st) !! service_name) ∪
  base_record (getuser w) function_name args kwargs (PyStr sid).

Definition suppressed (st : State) (service_name : string) : list string :=
  default [] (_pop_fields (api st) !! service_name).

(** The exception a delivery fails with: the transport's (RequestError),
    or the one raise_for_status makes of a status outside 200..299. *)
Definition delivery_failure (o : post_outcome) : option exn :=
  match o with
  | PostRaises e => if is_request_or_status_error e then Some e else None
  | PostResponds status => if is_success status then None else Some (HTTPStatusError status)
  end.

Definition logs (evs : list event) (st : State) : State :=
  fold_left (fun s ev => log ev s) evs st.

(** The state send_in_loop leaves when there is no running loop, up to what
    the coroutine printed: the coroutine queued on a new loop, the caller
    blocked for [t] milliseconds. *)
Definition after_wait (endpoint : string) (data : record) (t : N) (st : State) : State :=
  block t (set_idle_loops (idle_loops st ++ [[coroutine endpoint data]])%list st).

(** ** Worlds and states used in the examples *)

Definition sample_time : datetime :=
  {| year := 2024; month := 3; day := 7;
     hour := 9; minute := 5; second := 1; microsecond := 42 |}.

(** A world whose server cannot be reached and whose clock moves by one
    second at each reading, within the minute. *)
Definition offline_world : World :=
  {| getuser := "alice";
     now := fun n => {| year := 2024; month := 3; day := 7;
                        hour := 9; minute := 5; second := n mod 60; microsecond := 42 |};
     http_post := fun _ _ => PostRaises (RequestError "connection refused");
     completes_after := fun _ => None |}.

(** The same world with a clock that gives one reading twice: a timer
    coarser than the time between two calls. *)
Definition coarse_clock_world : World :=
  {| getuser := "alice";
     now := fun _ => sample_time;
     http_post := fun _ _ => PostRaises (RequestError "connection refused");
     completes_after := fun _ => None |}.

Definition payu_endpoints : gmap string string := {[ "payu" := "/payu/update" ]}.

(** ** Vocabulary of the further properties *)

(** The [str] elements of an iterable, when all of them are. *)
Definition strs_of (elements : list pyval) : option (list string) :=
  mapM (fun v => match v with PyStr s => Some s | _ => None end) elements.

Definition is_Posted (ev : event) : bool :=
  match ev with Posted _ _ => true | _ => false end.

(** How many requests a trace shows. *)
Definition posts (tr : list event) : nat := length (filter (fun ev => is_Posted ev = true) tr).

Definition is_RuntimeWarning (ev : event) : bool :=
  match ev with RuntimeWarning _ => true | _ => false end.

(** The warnings a trace shows: the program's calls of warnings.warn. *)
Definition warnings (tr : list event) : list event :=
  filter (fun ev => is_RuntimeWarning ev = true) tr.

Definition base_keys : gset string :=
  {[ "name"; "function"; "args"; "kwargs"; "session_id" ]}.

(** ** decorators.py *)

(** What the wrapper of [register_func] prints and warns. *)
Inductive wrapper_message :=
| SendingTelemetryDataTo (endpoint : string)
    (* f"Sending telemetry data to {endpoint}" *)
| TelemetryData (data : record)
    (* f"Telemetry Data: {data}" *)
| EndpointIs (endpoint : string)
    (* f"Endpoint: {endpoint}" *)
| HeadersAre
    (* f"Headers: {headers}", headers = {"Content-Type": "application/json"} *)
| WrapperRequestFailed (e : exn)
    (* f"Request failed: {e}" *)
| EventLoopNotRunning.
    (* "Event loop not running, telemetry will block execution" *)

Inductive wrapper_event :=
| WPrinted (m : wrapper_message)          (* print(m) *)
| WWarned (m : wrapper_message)           (* warnings.warn(m, category=RuntimeWarning) *)
| WPosted (url : string) (json : record). (* POST url, JSON body *)

(** The state of the handler together with what the decorator layer adds:
    its own output, and the tasks it created on the running loop from its
    own [send_telemetry] coroutine. *)
Record Wrapped := {
  core : State;
  wrapper_trace : list wrapper_event;
  wrapper_tasks : list Coroutine
}.

Definition W (A : Type) : Type := Wrapped -> result A * Wrapped.

Definition w_ret {A} (a : A) : W A := fun st => (Ok a, st).
Definition w_raise {A} (e : exn) : W A := fun st => (Raise e, st).
Definition w_bind {A B} (m : W A) (k : A -> W B) : W B :=
  fun st => match m st with
            | (Ok a, st') => k a st'
            | (Raise e, st') => (Raise e, st')
            end.

(** An operation of the handler, run on the handler's part of the state. *)
Definition w_lift {A} (m : M A) : W A :=
  fun st => let (r, s) := m (core st) in
            (r, {| core := s;
                   wrapper_trace := wrapper_trace st;
                   wrapper_tasks := wrapper_tasks st |}).

Definition w_emit (ev : wrapper_event) : W unit :=
  fun st => (Ok tt, {| core := core st;
                       wrapper_trace := (wrapper_trace st ++ [ev])%list;
                       wrapper_tasks := wrapper_tasks st |}).

Definition w_create_task (c : Coroutine) : W unit :=
  fun st => (Ok tt, {| core := core st;
                       wrapper_trace := wrapper_trace st;
                       wrapper_tasks := (wrapper_tasks st ++ [c])%list |}).

(** [try: body / except C: handler]. *)
Definition w_try_except {A} (body : W A) (caught : exn -> bool)
    (handler : exn -> W A) : W A :=
  fun st => match body st with
            | (Raise e, st') => if caught e then handler e st' else (Raise e, st')
            | r => r
            end.

Declare Scope wrapper_scope.
Delimit Scope wrapper_scope with wr.
Notation "x <- m ;; k" := (w_bind m (fun x => k))
  (at level 100, m at next level, right associativity) : wrapper_scope.
Notation "m ;; k" := (w_bind m (fun _ => k))
  (at level 100, right associativity) : wrapper_scope.

(** [x or default]. *)
Definition py_or (x default : pyval) : pyval :=
  if py_not x then default else x.

Definition is_RequestError (e : exn) : bool :=
  match e with RequestError _ => true | _ => false end.

Section Decorators.

Variable w : World.

(** [TelemetryRegister(service).register(name)], of registry.py. *)
Variable register : string -> string -> M unit.

(** Milliseconds that running the wrapper's send to its end takes. *)
Variable send_takes : string -> record -> N.

(** [decorator(func)] of [ipy_register_func] and of [register_func], up to
    the wrapper it returns; [name] is [func.__name__], and an argument left
    out is None. *)
Definition decorator (service : string) (extra_fields pop_fields : pyval)
    (name : string) : M unit :=
  add_extra_fields service (py_or extra_fields (py_dict ∅)) ;;
  remove_fields service (py_or pop_fields (PyList [])) ;;
  register service name.

(** The coroutine [send_telemetry(data)] that the wrapper of
    [register_func] defines, run to its end. *)
Definition wrapper_send_telemetry (endpoint : string) (data : record) : W unit :=
  (w_emit (WPrinted (TelemetryData data)) ;;
   w_emit (WPrinted (EndpointIs endpoint)) ;;
   w_emit (WPrinted HeadersAre) ;;
   w_try_except
     (w_emit (WPosted endpoint data) ;;
      match http_post w endpoint data with
      | PostRaises e => w_raise e
      | PostResponds status =>
          if is_success status then w_ret tt
          else w_raise (HTTPStatusError status)
      end)
     is_RequestError
     (fun e => w_emit (WWarned (WrapperRequestFailed e))))%wr.

(** [loop.run_until_complete(coro)] on a new loop: the caller is blocked
    until the coroutine has ended, and what it raised is raised. *)
Definition run_until_complete (endpoint : string) (data : record) : W unit :=
  (w_lift (modify (block (send_takes endpoint data))) ;;
   wrapper_send_telemetry endpoint data)%wr.

(** The [wrapper] of [register_func], around [func], called with the
    positional arguments [args] and the keyword arguments [kwargs]. *)
Definition wrapper (service name : string)
    (func : list pyval -> gmap string pyval -> M pyval)
    (args : list pyval) (kwargs : gmap string pyval) : W pyval :=
  (telemetry_data <- w_lift (_create_telemetry_record w service name
                               (PyTuple args) (py_dict kwargs)) ;;
   url <- w_lift server_url ;;
   eps <- w_lift (gets (fun st => endpoints (api st))) ;;
   path <- match eps !! service with
           | Some path => w_ret path
           | None => w_raise (KeyError (MissingKey service))
           end ;;
   let endpoint := url ++ path in
   w_emit (WPrinted (SendingTelemetryDataTo endpoint)) ;;
   loop <- w_lift (gets running_loop) ;;
   match loop with
   | Some _ =>
       (* loop.is_running() *)
       w_create_task (coroutine endpoint telemetry_data)
   | None =>
       (* asyncio.new_event_loop(); asyncio.set_event_loop(loop) *)
       run_until_complete endpoint telemetry_data ;;
       w_emit (WWarned EventLoopNotRunning)
   end ;;
   w_lift (func args kwargs))%wr.

(** The [wrapper] of [ipy_register_func], around [func]. *)
Definition ipy_wrapper (func : list pyval -> gmap string pyval -> M pyval)
    (args : list pyval) (kwargs : gmap string pyval) : W pyval :=
  w_lift (func args kwargs).

End Decorators.

(** The exception that leaves the wrapper's coroutine: what the post
    raised, unless it is a RequestError, or the HTTPStatusError of a status
    outside 200..299. *)
Definition wrapper_failure (o : post_outcome) : option exn :=
  match o with
  | PostRaises e => if is_RequestError e then None else Some e
  | PostResponds status => if is_success status then None else Some (HTTPStatusError status)
  end.

(** What the wrapper's coroutine prints, posts and warns when it ends. *)
Definition wrapper_output (endpoint : string) (data : record) (o : post_outcome)
    : list wrapper_event :=
  [WPrinted (TelemetryData data); WPrinted (EndpointIs endpoint); WPrinted HeadersAre;
   WPosted endpoint data] ++
  match o with
  | PostRaises e => if is_RequestError e then [WWarned (WrapperRequestFailed e)] else []
  | PostResponds _ => []
  end.

Definition wrapped (s : State) (evs : list wrapper_event) (tasks : list Coroutine)
    (st : Wrapped) : Wrapped :=
  {| core := s;
     wrapper_trace := (wrapper_trace st ++ evs)%list;
     wrapper_tasks := (wrapper_tasks st ++ tasks)%list |}.

(** A world whose server answers every request with 404. *)
Definition not_found_world : World :=
  {| getuser := "alice";
     now := fun _ => sample_time;
     http_post := fun _ _ => PostResponds 404;
     completes_after := fun _ => None |}.

Definition fresh_wrapped (loop : option (list Coroutine)) : Wrapped :=
  {| core := new_state payu_endpoints loop; wrapper_trace := []; wrapper_tasks := [] |}.

(** A decorated function that returns 1 and does nothing else. *)
Definition one (args : list pyval) (kwargs : gmap string pyval) : M pyval :=
  ret (PyInt 1).

(** A register that records nothing. *)
Definition no_register (service name : string) : M unit := ret tt.

(** ** hexdigest *)

Example round_constants_ends :
  length SHA256.round_constants = 64 /\
  nth 0 SHA256.round_constants 0%Z = 0x428a2f98%Z /\
  nth 63 SHA256.round_constants 0%Z = 0xc67178f2%Z /\
  SHA256.ra SHA256.initial_hash = 0x6a09e667%Z /\
  SHA256.rh SHA256.initial_hash = 0x5be0cd19%Z.
Proof. repeat split. Qed.

Example sha256_empty :
  SHA256.sha256_hexdigest "" =
  "e3b0c44298fc1c149afbf4c8996fb92427ae41e4649b934ca495991b7852b855".
Proof. vm_compute. reflexivity. Qed.

Example sha256_abc :
  SHA256.sha256_hexdigest "abc" =
  "ba7816bf8f01cfea414140de5dae2223b00361a396177a9cb410ff61f20015ad".
Proof. vm_compute. reflexivity. Qed.

Example sha256_two_blocks :
  SHA256.sha256_hexdigest "abcdbcdecdefdefgefghfghighijhijkijkljklmklmnlmnomnopnopq" =
  "248d6a61d20638b8e5c026930c3e6039a33ce45964ff2167f6ecedd419db06c1".
Proof. vm_compute. reflexivity. Qed.

Lemma length_string_of_list_ascii (l : list ascii) :
  String.length (string_of_list_ascii l) = length l.
Proof. induction l as [|c l IH]; simpl; congruence. Qed.

Lemma length_hex_word (x : Z) : length (SHA256.hex_word x) = 8.
Proof. reflexivity. Qed.

Lemma hex_digit_in_alphabet (x : Z) : SHA256.hex_digit x ∈ SHA256.hex_alphabet.
Proof.
  unfold SHA256.hex_digit. apply list_elem_of_In, nth_In.
  change (length SHA256.hex_alphabet) with 16.
  pose proof (Z.mod_pos_bound x 16 eq_refl). lia.
Qed.

Lemma hex_word_hex (x : Z) : Forall (fun c => is_hex c = true) (SHA256.hex_word x).
Proof.
  unfold SHA256.hex_word. apply Forall_forall. intros c Hc.
  apply list_elem_of_In, in_map_iff in Hc. destruct Hc as [i [<- _]].
  apply bool_decide_eq_true, hex_digit_in_alphabet.
Qed.

Lemma sha256_hexdigest_length (s : string) :
  String.length (SHA256.sha256_hexdigest s) = 64.
Proof.
  unfold SHA256.sha256_hexdigest, SHA256.hex_regs.
  rewrite length_string_of_list_ascii, !length_app, !length_hex_word.
  reflexivity.
Qed.

Lemma sha256_hexdigest_hex (s : string) :
  Forall (fun c => is_hex c = true) (list_ascii_of_string (SHA256.sha256_hexdigest s)).
Proof.
  unfold SHA256.sha256_hexdigest, SHA256.hex_regs.
  rewrite list_ascii_of_string_of_list_ascii.
  repeat (apply Forall_app; split); apply hex_word_hex.
Qed.

Lemma sha256_hexdigest_truthy (s : string) :
  String.eqb (SHA256.sha256_hexdigest s) "" = false.
Proof.
  pose proof (sha256_hexdigest_length s) as H.
  destruct (SHA256.sha256_hexdigest s); [discriminate H | reflexivity].
Qed.

(** ** Validation *)

Lemma str_keyed_items_fmap (l : list (string * pyval)) :
  str_keyed_items (prod_map KStr id <$> l) = Some l.
Proof.
  unfold str_keyed_items. induction l as [|[s x] l IH]; [reflexivity|].
  cbn. cbn in IH. rewrite IH. reflexivity.
Qed.

Lemma str_keyed_items_is_Some (items : list (pykey * pyval)) :
  is_Some (str_keyed_items items) <-> str_keyed (PyDict items).
Proof.
  unfold str_keyed_items. rewrite mapM_is_Some, Forall_forall. simpl. split.
  - intros H k x Hk.
    specialize (H (k, x) Hk). simpl in H. destruct k as [s|n]; [eauto|].
    destruct H as [? [=]].
  - intros H [k x] Hk.
    destruct (H k x Hk) as [s ->]. simpl. eauto.
Qed.

Lemma str_keyed_py_dict (m : gmap string pyval) : str_keyed (py_dict m).
Proof. apply str_keyed_items_is_Some. rewrite str_keyed_items_fmap. eauto. Qed.

Lemma validate_py_dict (m : gmap string pyval) (st : State) :
  validate_dict_str_any (py_dict m) st = (Ok m, st).
Proof.
  unfold validate_dict_str_any, py_dict. rewrite str_keyed_items_fmap.
  unfold ret. f_equal. f_equal.
  rewrite <- (list_to_map_to_list m) at 2.
  apply list_to_map_proper; [|apply reverse_Permutation].
  rewrite fmap_reverse, reverse_Permutation. apply NoDup_fst_map_to_list.
Qed.

Lemma validate_not_str_keyed (v : pyval) (st : State) :
  ~ str_keyed v -> validate_dict_str_any v st = (Raise ValidationError, st).
Proof.
  intros H. destruct v as [| | | | | |items]; try reflexivity. simpl.
  destruct (str_keyed_items items) eqn:E; [|reflexivity].
  exfalso. apply H, str_keyed_items_is_Some. eauto.
Qed.

Lemma validate_str_keyed (v : pyval) (st : State) :
  str_keyed v -> exists m, validate_dict_str_any v st = (Ok m, st).
Proof.
  destruct v as [| | | | | |items]; simpl; try tauto. intros H.
  apply (str_keyed_items_is_Some items) in H as [l Hl].
  rewrite Hl. eauto.
Qed.

(** A dict whose display names no key twice yields its keys as written. *)
Lemma dict_keys_NoDup (items : list (pykey * pyval)) :
  NoDup (items.*1) -> dict_keys items = items.*1.
Proof.
  induction items as [|[k x] items IH]; [reflexivity|].
  cbn. intros Hnd. apply NoDup_cons in Hnd as [Hk Hnd].
  rewrite (IH Hnd). f_equal.
  clear IH Hnd. induction (items.*1) as [|k' l IH]; [reflexivity|].
  apply not_elem_of_cons in Hk as [Hne Hk].
  rewrite filter_cons_True by congruence. f_equal. exact (IH Hk).
Qed.

(** The characters of a str are the str cut into pieces: nothing is lost,
    and a str of ASCII bytes is cut byte by byte. *)
Lemma code_points_append (s : string) :
  fst (code_points s) ++ fold_right String.append "" (snd (code_points s)) = s.
Proof.
  induction s as [|c s IH]; [reflexivity|].
  cbn [code_points]. destruct (code_points s) as [pending done]. cbn in IH.
  destruct (is_continuation c); rewrite <- IH; reflexivity.
Qed.

Lemma characters_append (s : string) :
  fold_right String.append "" (characters s) = s.
Proof.
  pose proof (code_points_append s) as H. unfold characters.
  destruct (code_points s) as [[|c pending] done]; exact H.
Qed.

Lemma characters_ascii (s : string) :
  Forall (fun c => is_continuation c = false) (list_ascii_of_string s) ->
  characters s = map (fun c => String c EmptyString) (list_ascii_of_string s).
Proof.
  intros H.
  assert (code_points s =
          (EmptyString, map (fun c => String c EmptyString) (list_ascii_of_string s)))
    as Hcp.
  { induction s as [|c s IH]; [reflexivity|].
    cbn in H. apply Forall_cons in H as [Hc H].
    cbn [code_points]. rewrite (IH H), Hc. reflexivity. }
  unfold characters. rewrite Hcp. reflexivity.
Qed.

(** ** The monad *)

Lemma bind_Ok {A B} (m : M A) (k : A -> M B) st a st' :
  m st = (Ok a, st') -> bind m k st = k a st'.
Proof. intros H. unfold bind. rewrite H. reflexivity. Qed.

Lemma bind_Raise {A B} (m : M A) (k : A -> M B) st e st' :
  m st = (Raise e, st') -> bind m k st = (Raise e, st').
Proof. intros H. unfold bind. rewrite H. reflexivity. Qed.

Lemma Ok_inj {A} (a b : A) : Ok a = Ok b -> a = b.
Proof. intros H. injection H as H. exact H. Qed.

(** ** SessionID *)

Section SessionFacts.

Variable w : World.

Lemma create_session_id_eq (st : State) :
  create_session_id w st = (Ok (session_id_at w st), tick st).
Proof. reflexivity. Qed.

Lemma SessionID_new_first (st : State) :
  SessionID_instance st = None ->
  SessionID_new w st = (Ok (PyStr (session_id_at w st)), cached (session_id_at w st) (tick st)).
Proof.
  intros H. unfold SessionID_new, cls_instance, bind at 1 2, gets.
  rewrite H. reflexivity.
Qed.

Lemma SessionID_new_no_value (st : State) :
  SessionID_instance st = Some {| value := None |} ->
  SessionID_new w st = (Ok (PyStr (session_id_at w st)), cached (session_id_at w st) (tick st)).
Proof.
  intros H. unfold SessionID_new, cls_instance, bind at 1 2, gets.
  rewrite H. cbn -[SHA256.sha256_hexdigest].
  fold (session_id_at w st). unfold py_not.
  replace (session_id_at w st =? "") with false
    by (symmetry; apply sha256_hexdigest_truthy).
  reflexivity.
Qed.

Lemma SessionID_new_cached (st : State) (v : string) :
  SessionID_instance st = Some {| value := Some v |} -> v <> "" ->
  SessionID_new w st = (Ok (PyStr v), st).
Proof.
  intros H Hv. unfold SessionID_new, cls_instance, bind at 1 2, gets.
  rewrite H. cbn. apply String.eqb_neq in Hv. rewrite Hv. cbn.
  rewrite H. reflexivity.
Qed.

Lemma SessionID_new_empty_value (st : State) :
  SessionID_instance st = Some {| value := Some "" |} ->
  SessionID_new w st = (Ok (PyStr (session_id_at w st)), cached (session_id_at w st) (tick st)).
Proof.
  intros H. unfold SessionID_new, cls_instance, bind at 1 2, gets.
  rewrite H. reflexivity.
Qed.

(** [SessionID()] always evaluates to a [str] and touches nothing but the
    session identifier and the clock. *)
Lemma SessionID_new_total (st : State) :
  exists v st', SessionID_new w st = (Ok (PyStr v), st') /\ same_but_session st st'.
Proof.
  destruct (SessionID_instance st) as [[[v|]]|] eqn:H.
  - destruct (decide (v = "")) as [->|Hv].
    + eexists _, _. split; [apply SessionID_new_empty_value, H|]. repeat split.
    + eexists _, _. split; [apply SessionID_new_cached; eassumption|]. repeat split.
  - eexists _, _. split; [apply SessionID_new_no_value, H|]. repeat split.
  - eexists _, _. split; [apply SessionID_new_first, H|]. repeat split.
Qed.

End SessionFacts.

Lemma offline_first_session_id (st : State) :
  clock_reads st = 0 ->
  session_id_at offline_world st =
  "4412189eae1acec805b3ad40b355aee68a3f06efef38c70fe34678376484bace".
Proof. intros H. unfold session_id_at. rewrite H. vm_compute. reflexivity. Qed.

Lemma coarse_clock_session_id (st : State) :
  session_id_at coarse_clock_world st =
  "094fb66f65671df19fc4642b6666b5c799faf4d4d52e419f5af15cea552e1e18".
Proof. vm_compute. reflexivity. Qed.

(** ** Configuration *)

Lemma add_extra_fields_known (service_name : string) (fields : gmap string pyval)
    (st : State) :
  service_name ∈ dom (endpoints (api st)) ->
  add_extra_fields service_name (py_dict fields) st =
  (Ok tt, with_api (fun h =>
     set_extra_fields (<[service_name := fields]> (_extra_fields h)) h) st).
Proof.
  intros H. unfold add_extra_fields.
  rewrite (bind_Ok _ _ _ _ _ (validate_py_dict fields st)).
  unfold bind, gets. destruct (decide _); [reflexivity | contradiction].
Qed.

Lemma add_extra_fields_unknown (service_name : string) (fields : gmap string pyval)
    (st : State) :
  service_name ∉ dom (endpoints (api st)) ->
  add_extra_fields service_name (py_dict fields) st =
  (Raise (KeyError (EndpointNotFound service_name)), st).
Proof.
  intros H. unfold add_extra_fields.
  rewrite (bind_Ok _ _ _ _ _ (validate_py_dict fields st)).
  unfold bind, gets. destruct (decide _); [contradiction | reflexivity].
Qed.

Lemma add_extra_fields_invalid (service_name : string) (fields : pyval) (st : State) :
  ~ str_keyed fields ->
  add_extra_fields service_name fields st = (Raise ValidationError, st).
Proof.
  intros H. unfold add_extra_fields.
  apply bind_Raise, validate_not_str_keyed, H.
Qed.

Lemma validated_strs_PyStr (l : list string) (st : State) :
  validated_strs (PyStr <$> l) st = (Ok l, st).
Proof.
  induction l as [|s l IH]; [reflexivity|].
  cbn. unfold bind. rewrite IH. reflexivity.
Qed.

Lemma remove_fields_list (service : string) (fields : list string) (st : State) :
  remove_fields service (PyList (PyStr <$> fields)) st =
  (Ok tt, with_api (fun h =>
     set_pop_fields (<[service := fields]> (_pop_fields h)) h) st).
Proof.
  unfold remove_fields, validate_iterable_str, remove_fields_body. cbn.
  rewrite (bind_Ok _ _ _ _ _ (validated_strs_PyStr fields st)). reflexivity.
Qed.

Lemma with_api_with_api (f g : ApiHandler -> ApiHandler) (st : State) :
  with_api f (with_api g st) = with_api (fun h => f (g h)) st.
Proof. reflexivity. Qed.

Lemma remove_fields_str (service s : string) (st : State) :
  remove_fields service (PyStr s) st =
  (Ok tt, with_api (fun h =>
     set_pop_fields (<[service := characters s]> (_pop_fields h)) h) st).
Proof.
  unfold remove_fields, validate_iterable_str, remove_fields_body. cbn.
  rewrite (bind_Ok _ _ _ _ _ (validated_strs_PyStr (characters s) st)). reflexivity.
Qed.

(** The body alone, handed a plain str, would keep it whole. *)
Lemma remove_fields_body_str (service s : string) (st : State) :
  remove_fields_body service (StrObject s) st =
  (Ok tt, with_api (fun h => set_pop_fields (<[service := [s]]> (_pop_fields h)) h) st).
Proof. reflexivity. Qed.

Lemma validated_strs_state (elements : list pyval) (st : State) :
  snd (validated_strs elements st) = st.
Proof.
  induction elements as [|[] elements IH]; try reflexivity.
  cbn. unfold bind. destruct (validated_strs elements st) as [[l|e] st'];
    cbn in *; exact IH.
Qed.

Lemma add_extra_fields_no_wait (service_name : string) (fields : pyval) (st : State) :
  waited_ms (snd (add_extra_fields service_name fields st)) = waited_ms st.
Proof.
  unfold add_extra_fields, validate_dict_str_any, bind, gets.
  destruct fields as [| | | | | |items]; try reflexivity.
  destruct (str_keyed_items items); [|reflexivity].
  cbn. destruct (decide _); reflexivity.
Qed.

Lemma remove_fields_no_wait (service : string) (fields : pyval) (st : State) :
  waited_ms (snd (remove_fields service fields st)) = waited_ms st.
Proof.
  unfold remove_fields, validate_iterable_str, remove_fields_body, bind.
  destruct (iter fields) as [elements|]; [|reflexivity]. cbn.
  pose proof (validated_strs_state elements st) as H.
  destruct (validated_strs elements st) as [[l|e] st']; cbn in *; subst; reflexivity.
Qed.

(** ** Removing the suppressed fields *)

Lemma pop_each_present (fields : list string) (telemetry_data : record) :
  NoDup fields ->
  (forall field, field ∈ fields -> is_Some (telemetry_data !! field)) ->
  exists r, pop_each fields telemetry_data = Ok r /\
    forall k, r !! k = if decide (k ∈ fields) then None else telemetry_data !! k.
Proof.
  revert telemetry_data.
  induction fields as [|field rest IH]; intros telemetry_data Hnd Hin.
  - exists telemetry_data. split; [reflexivity|]. intros k.
    destruct (decide _) as [Hk|]; [|reflexivity]. inversion Hk.
  - apply NoDup_cons in Hnd as [Hfield Hnd]. cbn.
    destruct (Hin field) as [x Hx]; [left|]. rewrite Hx.
    destruct (IH (delete field telemetry_data) Hnd) as (r & Hr & Hlookup).
    { intros f Hf. rewrite lookup_delete_ne by (intros ->; contradiction).
      apply Hin. right. exact Hf. }
    exists r. split; [exact Hr|]. intros k. rewrite Hlookup.
    destruct (decide (k ∈ rest)) as [H1|H1];
      destruct (decide (k ∈ field :: rest)) as [H2|H2].
    + reflexivity.
    + exfalso. apply H2. right. exact H1.
    + apply elem_of_cons in H2 as [->|H2]; [apply lookup_delete_eq | contradiction].
    + apply lookup_delete_ne. intros ->. apply H2. left.
Qed.

(** The first field that is not in the record when its turn comes, because
    it never was or because an earlier turn removed it, stops the loop. *)
Lemma pop_each_absent (before : list string) (field : string) (after : list string)
    (telemetry_data : record) :
  NoDup before ->
  (forall f, f ∈ before -> is_Some (telemetry_data !! f)) ->
  field ∈ before \/ telemetry_data !! field = None ->
  pop_each (before ++ field :: after) telemetry_data = Raise (KeyError (MissingKey field)).
Proof.
  revert telemetry_data.
  induction before as [|f0 before IH]; intros telemetry_data Hnd Hin Habs.
  - destruct Habs as [Habs|Habs]; [inversion Habs|]. cbn. rewrite Habs. reflexivity.
  - apply NoDup_cons in Hnd as [Hf0 Hnd]. cbn.
    destruct (Hin f0) as [x Hx]; [left|]. rewrite Hx.
    apply IH; [exact Hnd| |].
    + intros f Hf. rewrite lookup_delete_ne by (intros ->; contradiction).
      apply Hin. right. exact Hf.
    + destruct (decide (field = f0)) as [->|Hne].
      * right. apply lookup_delete_eq.
      * destruct Habs as [Habs|Habs].
        -- apply elem_of_cons in Habs as [?|?]; [contradiction | left; assumption].
        -- right. rewrite lookup_delete_ne by congruence. exact Habs.
Qed.

(** Either every field is there at its turn, or the list splits at the
    first one that is not. *)
Lemma pop_each_cases (fields : list string) (telemetry_data : record) :
  (NoDup fields /\ forall f, f ∈ fields -> is_Some (telemetry_data !! f)) \/
  (exists before field after,
      fields = (before ++ field :: after)%list /\ NoDup before /\
      (forall f, f ∈ before -> is_Some (telemetry_data !! f)) /\
      (field ∈ before \/ telemetry_data !! field = None)).
Proof.
  induction fields as [|f fields IH] using rev_ind.
  - left. split; [constructor | intros f Hf; inversion Hf].
  - destruct IH as [[Hnd Hin]|(before & field & after & -> & Hnd & Hin & Habs)].
    + destruct (decide (f ∈ fields)) as [Hf|Hf].
      { right. exists fields, f, []. auto. }
      destruct (telemetry_data !! f) as [x|] eqn:Hx.
      * left. split.
        -- apply NoDup_app. repeat split; [exact Hnd | | apply NoDup_singleton].
           intros y Hy Hy'. apply list_elem_of_singleton in Hy'. congruence.
        -- intros y Hy. apply elem_of_app in Hy as [Hy|Hy]; [auto|].
           apply list_elem_of_singleton in Hy. subst. eauto.
      * right. exists fields, f, []. auto.
    + right. exists before, field, (after ++ [f])%list.
      rewrite <- app_assoc. auto.
Qed.

Lemma pop_each_raises_KeyError (fields : list string) (r : record) (e : exn) :
  pop_each fields r = Raise e -> is_KeyError e = true.
Proof.
  revert r. induction fields as [|f fields IH]; intros r; cbn; [discriminate|].
  destruct (r !! f); [apply IH|]. intros [= <-]. reflexivity.
Qed.

(** ** Building the record *)

Section RecordFacts.

Variable w : World.

Lemma create_record_run (st st1 : State) (service_name function_name : string)
    (args kwargs : pyval) (sid : string) :
  SessionID_new w st = (Ok (PyStr sid), st1) ->
  api st1 = api st ->
  _create_telemetry_record w service_name function_name args kwargs st =
  match pop_each (suppressed st service_name)
                 (built_record w st service_name function_name args kwargs sid) with
  | Ok r => (Ok r, with_api (set_last_record (Some r)) st1)
  | Raise e => (Raise e, st1)
  end.
Proof.
  intros Hsid Hapi. unfold _create_telemetry_record.
  rewrite (bind_Ok _ _ _ _ _ Hsid).
  unfold bind, gets, lift, modify, suppressed, built_record. rewrite Hapi.
  destruct (pop_each _ _); reflexivity.
Qed.

Lemma built_record_lookup (st : State) (service_name function_name : string)
    (args kwargs : pyval) (sid k : string) :
  built_record w st service_name function_name args kwargs sid !! k =
  match default ∅ (_extra_fields (api st) !! service_name) !! k with
  | Some v => Some v
  | None => base_record (getuser w) function_name args kwargs (PyStr sid) !! k
  end.
Proof.
  unfold built_record. rewrite lookup_union.
  destruct (default ∅ _ !! k), (base_record _ _ _ _ _ !! k); reflexivity.
Qed.

End RecordFacts.

Lemma create_record_no_wait (w : World) (service_name function_name : string)
    (args kwargs : pyval) (st : State) :
  waited_ms (snd (_create_telemetry_record w service_name function_name args kwargs st))
  = waited_ms st.
Proof.
  destruct (SessionID_new_total w st) as (sid & st1 & Hsid & Hframe).
  rewrite (create_record_run w st st1 _ _ _ _ sid Hsid (proj1 Hframe)).
  destruct Hframe as (_ & _ & _ & _ & Hwait).
  destruct (pop_each _ _); cbn; exact Hwait.
Qed.

Lemma overlay_example_record (name : string) (sid : pyval) :
  pop_each ["session_id"; "name"]
    (({[ "model" := PyStr "X"; "n" := PyInt 2 ]} : gmap string pyval) ∪
     base_record name "_test" (PyList []) (py_dict ∅) sid) =
  Ok {[ "function" := PyStr "_test"; "args" := PyList []; "kwargs" := py_dict ∅;
        "model" := PyStr "X"; "n" := PyInt 2 ]}.
Proof. reflexivity. Qed.

(** ** Delivery *)

Lemma logs_frame (evs : list event) (st : State) :
  api (logs evs st) = api st /\
  SessionID_instance (logs evs st) = SessionID_instance st /\
  clock_reads (logs evs st) = clock_reads st /\
  running_loop (logs evs st) = running_loop st /\
  idle_loops (logs evs st) = idle_loops st /\
  trace (logs evs st) = (trace st ++ evs)%list /\
  waited_ms (logs evs st) = waited_ms st.
Proof.
  revert st. induction evs as [|ev evs IH]; intros st.
  - cbn. rewrite app_nil_r. repeat split.
  - cbn [logs fold_left]. fold (logs evs (log ev st)).
    destruct (IH (log ev st)) as (-> & -> & -> & -> & -> & -> & ->).
    cbn. rewrite <- app_assoc. repeat split.
Qed.

Section SendFacts.

Variable w : World.

Lemma send_api_request_unknown (st st1 : State) (service_name function_name : string)
    (args kwargs : pyval) (sid : string) :
  SessionID_new w st = (Ok (PyStr sid), st1) ->
  api st1 = api st ->
  endpoints (api st) !! service_name = None ->
  send_api_request w service_name function_name args kwargs st =
  match pop_each (suppressed st service_name)
                 (built_record w st service_name function_name args kwargs sid) with
  | Ok r => (Raise (KeyError (EndpointNotFoundIn service_name (endpoints (api st)))),
             with_api (set_last_record (Some r)) st1)
  | Raise e => (Raise e, st1)
  end.
Proof.
  intros Hsid Hapi Hnone. unfold send_api_request.
  pose proof (create_record_run w st st1 service_name function_name args kwargs sid
                Hsid Hapi) as Hrun.
  destruct (pop_each _ _) as [r|e].
  - rewrite (bind_Ok _ _ _ _ _ Hrun). unfold bind, gets. cbn.
    rewrite Hapi, Hnone. reflexivity.
  - apply bind_Raise, Hrun.
Qed.

End SendFacts.

Section DeliveryFacts.

Variable w : World.

Lemma send_telemetry_failure (endpoint : string) (data : record) (st : State) (e : exn) :
  delivery_failure (http_post w endpoint data) = Some e ->
  send_telemetry w endpoint data st =
  (Ok tt, logs [Printed (PostingTelemetryTo endpoint); Posted endpoint data;
                RuntimeWarning (RequestFailed e)] st).
Proof.
  unfold delivery_failure, send_telemetry, try_except, client_post, raise_for_status,
    bind, modify, raise, ret.
  destruct (http_post w endpoint data) as [e'|status].
  - destruct (is_request_or_status_error e') eqn:He; [|discriminate].
    intros [= <-]. cbn. rewrite He. reflexivity.
  - destruct (is_success status); [discriminate|].
    intros [= <-]. reflexivity.
Qed.

Lemma send_telemetry_success (endpoint : string) (data : record) (st : State)
    (status : Z) :
  http_post w endpoint data = PostResponds status -> is_success status = true ->
  send_telemetry w endpoint data st =
  (Ok tt, logs [Printed (PostingTelemetryTo endpoint); Posted endpoint data] st).
Proof.
  intros Hpost Hok.
  unfold send_telemetry, try_except, client_post, raise_for_status,
    bind, modify, raise, ret.
  rewrite Hpost, Hok. reflexivity.
Qed.

(** Whatever the network does, the coroutine only prints, posts and warns,
    and what it may raise is neither a RequestError nor an
    HTTPStatusError. *)
Lemma send_telemetry_logs (endpoint : string) (data : record) (st : State) :
  exists r evs,
    send_telemetry w endpoint data st = (r, logs evs st) /\
    match r with
    | Ok _ => True
    | Raise e => is_request_or_status_error e = false
    end.
Proof.
  destruct (delivery_failure (http_post w endpoint data)) as [e|] eqn:Hfail.
  - eexists _, _. split; [apply send_telemetry_failure, Hfail | exact I].
  - unfold delivery_failure in Hfail.
    destruct (http_post w endpoint data) as [e'|status] eqn:Hpost.
    + destruct (is_request_or_status_error e') eqn:He; [discriminate|].
      exists (Raise e'), [Printed (PostingTelemetryTo endpoint); Posted endpoint data].
      split; [|exact He].
      unfold send_telemetry, try_except, client_post, raise_for_status,
        bind, modify, raise, ret.
      rewrite Hpost. cbn. rewrite He. reflexivity.
    + destruct (is_success status) eqn:Hok; [|discriminate].
      eexists _, _. split; [apply (send_telemetry_success _ _ _ status Hpost Hok) | exact I].
Qed.

Lemma send_in_loop_running (endpoint : string) (data : record) (st : State)
    (tasks : list Coroutine) :
  running_loop st = Some tasks ->
  send_in_loop w endpoint data st =
  (Ok tt, set_running_loop (Some (tasks ++ [coroutine endpoint data])%list) st).
Proof.
  intros H. unfold send_in_loop, try_except, create_task_on_running_loop, bind, gets.
  rewrite H. reflexivity.
Qed.

Lemma send_in_loop_timeout (endpoint : string) (data : record) (st : State) :
  running_loop st = None ->
  match completes_after w (coroutine endpoint data) with
  | Some t => (timeout_ms < t)%N
  | None => True
  end ->
  send_in_loop w endpoint data st =
  (Ok tt, log (Printed CoroutineTookTooLong) (after_wait endpoint data timeout_ms st)).
Proof.
  intros H Hlate.
  unfold send_in_loop, try_except, create_task_on_running_loop, bind, gets.
  rewrite H. cbn. unfold bind, run_coroutine_on_new_loop, modify, future_result.
  fold (coroutine endpoint data).
  destruct (completes_after w (coroutine endpoint data)) as [t|]; [|reflexivity].
  apply N.leb_gt in Hlate. rewrite Hlate. reflexivity.
Qed.

Lemma send_in_loop_completed (endpoint : string) (data : record) (st : State) (t : N) :
  running_loop st = None ->
  completes_after w (coroutine endpoint data) = Some t ->
  (t <= timeout_ms)%N ->
  send_in_loop w endpoint data st =
  match send_telemetry w endpoint data (after_wait endpoint data t st) with
  | (Ok _, st') => (Ok tt, st')
  | (Raise e, st') =>
      (Ok tt, log (Printed (if is_TimeoutError e then CoroutineTookTooLong
                            else CoroutineRaised e)) st')
  end.
Proof.
  intros H Ht Hle.
  unfold send_in_loop, try_except, create_task_on_running_loop, bind, gets.
  rewrite H. cbn. unfold bind, run_coroutine_on_new_loop, modify, future_result.
  fold (coroutine endpoint data). rewrite Ht.
  apply N.leb_le in Hle. rewrite Hle.
  unfold after_wait, bind, run, modify. cbn [co_endpoint co_data coroutine].
  destruct (send_telemetry w endpoint data _) as [[[]|e] st'].
  - reflexivity.
  - cbn. destruct (is_TimeoutError e); reflexivity.
Qed.

(** send_in_loop returns normally on both paths; without a running loop
    the caller has waited at most the timeout, with one it has not waited. *)
Lemma send_in_loop_returns (endpoint : string) (data : record) (st : State) :
  exists st',
    send_in_loop w endpoint data st = (Ok tt, st') /\
    api st' = api st /\
    SessionID_instance st' = SessionID_instance st /\
    (waited_ms st <= waited_ms st')%N /\
    (waited_ms st' <= waited_ms st + timeout_ms)%N /\
    (is_Some (running_loop st) -> waited_ms st' = waited_ms st).
Proof.
  destruct (running_loop st) as [tasks|] eqn:Hloop.
  - eexists. split; [apply (send_in_loop_running _ _ _ tasks Hloop)|].
    cbn. repeat split; lia.
  - destruct (completes_after w (coroutine endpoint data)) as [t|] eqn:Ht.
    + destruct (decide (t <= timeout_ms)%N) as [Hle|Hgt].
      * rewrite (send_in_loop_completed _ _ _ t Hloop Ht Hle).
        destruct (send_telemetry_logs endpoint data (after_wait endpoint data t st))
          as (r & evs & -> & _).
        pose proof (logs_frame evs (after_wait endpoint data t st))
          as (Hapi & Hsess & _ & _ & _ & _ & Hwait).
        destruct r as [[]|e]; eexists; (split; [reflexivity|]); cbn;
          rewrite Hapi, Hsess, Hwait; cbn;
          (repeat split; [lia | lia | intros [? [=]]]).
      * rewrite send_in_loop_timeout; [|exact Hloop | rewrite Ht; lia].
        eexists. split; [reflexivity|]. cbn.
        repeat split; [lia | lia | intros [? [=]]].
    + rewrite send_in_loop_timeout; [|exact Hloop | rewrite Ht; exact I].
      eexists. split; [reflexivity|]. cbn.
      repeat split; [lia | lia | intros [? [=]]].
Qed.

Lemma send_api_request_known (st st1 : State) (service_name function_name : string)
    (args kwargs : pyval) (sid endpoint : string) :
  SessionID_new w st = (Ok (PyStr sid), st1) ->
  api st1 = api st ->
  endpoints (api st) !! service_name = Some endpoint ->
  send_api_request w service_name function_name args kwargs st =
  match pop_each (suppressed st service_name)
                 (built_record w st service_name function_name args kwargs sid) with
  | Ok r => send_in_loop w (_server_url (api st) ++ endpoint) r
              (with_api (set_last_record (Some r)) st1)
  | Raise e => (Raise e, st1)
  end.
Proof.
  intros Hsid Hapi Hsome. unfold send_api_request.
  pose proof (create_record_run w st st1 service_name function_name args kwargs sid
                Hsid Hapi) as Hrun.
  destruct (pop_each _ _) as [r|e].
  - rewrite (bind_Ok _ _ _ _ _ Hrun). unfold bind, gets, server_url, ret. cbn.
    rewrite Hapi, Hsome. cbn. rewrite Hapi. reflexivity.
  - apply bind_Raise, Hrun.
Qed.

(** What send_api_request may raise and how long it may block. *)
Lemma send_api_request_outcome (st : State) (service_name function_name : string)
    (args kwargs : pyval) :
  exists r st',
    send_api_request w service_name function_name args kwargs st = (r, st') /\
    match r with Ok _ => True | Raise e => is_KeyError e = true end /\
    (waited_ms st' <= waited_ms st + timeout_ms)%N.
Proof.
  destruct (SessionID_new_total w st) as (sid & st1 & Hsid & Hframe).
  destruct Hframe as (Hapi & _ & _ & _ & Hwait).
  destruct (endpoints (api st) !! service_name) as [endpoint|] eqn:Hep.
  - rewrite (send_api_request_known st st1 _ _ _ _ sid endpoint Hsid Hapi Hep).
    destruct (pop_each _ _) as [r|e] eqn:Hpop.
    + destruct (send_in_loop_returns (_server_url (api st) ++ endpoint) r
                  (with_api (set_last_record (Some r)) st1))
        as (st' & -> & _ & _ & _ & Hle & _).
      exists (Ok tt), st'. split; [reflexivity|]. split; [exact I|].
      cbn in Hle. lia.
    + exists (Raise e), st1. split; [reflexivity|].
      split; [exact (pop_each_raises_KeyError _ _ _ Hpop) | lia].
  - rewrite (send_api_request_unknown w st st1 _ _ _ _ sid Hsid Hapi Hep).
    destruct (pop_each _ _) as [r|e] eqn:Hpop.
    + eexists _, _. split; [reflexivity|]. split; [reflexivity|]. cbn. lia.
    + exists (Raise e), st1. split; [reflexivity|].
      split; [exact (pop_each_raises_KeyError _ _ _ Hpop) | lia].
Qed.

(** Once the identifier is cached, a send leaves it cached. *)
Lemma send_api_request_keeps_session (st : State) (service_name function_name : string)
    (args kwargs : pyval) (v : string) :
  SessionID_instance st = Some {| value := Some v |} -> v <> "" ->
  SessionID_instance (snd (send_api_request w service_name function_name args kwargs st))
  = Some {| value := Some v |}.
Proof.
  intros Hcached Hv.
  pose proof (SessionID_new_cached w st v Hcached Hv) as Hsid.
  destruct (endpoints (api st) !! service_name) as [endpoint|] eqn:Hep.
  - rewrite (send_api_request_known st st _ _ _ _ v endpoint Hsid eq_refl Hep).
    destruct (pop_each _ _) as [r|e]; [|exact Hcached].
    destruct (send_in_loop_returns (_server_url (api st) ++ endpoint) r
                (with_api (set_last_record (Some r)) st))
      as (st' & -> & _ & Hsess & _).
    cbn. rewrite Hsess. exact Hcached.
  - rewrite (send_api_request_unknown w st st _ _ _ _ v Hsid eq_refl Hep).
    destruct (pop_each _ _) as [r|e]; exact Hcached.
Qed.

End DeliveryFacts.

(** ** The claims *)

(** C1.  With endpoints = {"payu": "/payu/update"}, after
    add_extra_fields("payu", {"model": "X", "n": 2}) and
    remove_fields("payu", ["session_id", "name"]), the call
    _create_telemetry_record("payu", "_test", [], {}) returns exactly
    {"function": "_test", "args": [], "kwargs": {}, "model": "X", "n": 2},
    whatever the rest of the state, the user name and the clock are.  In
    general a record that is returned holds, at every key, nothing if the key
    is suppressed, else the overlay's value if the overlay has the key, else
    the value of the base record name/function/args/kwargs/session_id. *)
Theorem overlay_merge_example (w : World) (st : State) :
  endpoints (api st) = payu_endpoints ->
  (exists st',
     (add_extra_fields "payu" (py_dict {[ "model" := PyStr "X"; "n" := PyInt 2 ]}) ;;
      remove_fields "payu" (PyList [PyStr "session_id"; PyStr "name"]) ;;
      _create_telemetry_record w "payu" "_test" (PyList []) (py_dict ∅)) st =
     (Ok {[ "function" := PyStr "_test"; "args" := PyList []; "kwargs" := py_dict ∅;
            "model" := PyStr "X"; "n" := PyInt 2 ]}, st')) /\
  (forall (s : State) service_name function_name args kwargs r s',
     _create_telemetry_record w service_name function_name args kwargs s = (Ok r, s') ->
     exists sid, forall k,
       r !! k =
       if decide (k ∈ suppressed s service_name) then None
       else match default ∅ (_extra_fields (api s) !! service_name) !! k with
            | Some v => Some v
            | None => base_record (getuser w) function_name args kwargs (PyStr sid) !! k
            end).
Proof.
  intros Heps. split.
  - erewrite bind_Ok; cycle 1.
    { apply add_extra_fields_known. rewrite Heps. unfold payu_endpoints. set_solver. }
    erewrite bind_Ok; cycle 1.
    { apply (remove_fields_list "payu" ["session_id"; "name"]). }
    match goal with
    | |- context [ _create_telemetry_record _ _ _ _ _ ?s ] => set (st2 := s)
    end.
    destruct (SessionID_new_total w st2) as (sid & st3 & Hsid & Hframe).
    rewrite (create_record_run w st2 st3 _ _ _ _ sid Hsid (proj1 Hframe)).
    unfold suppressed, built_record. subst st2.
    cbn [api with_api set_pop_fields set_extra_fields _pop_fields _extra_fields].
    rewrite !lookup_insert_eq. cbn [default].
    rewrite overlay_example_record. eexists. reflexivity.
  - intros s service_name function_name args kwargs r s' Hrun.
    destruct (SessionID_new_total w s) as (sid & s1 & Hsid & Hframe).
    rewrite (create_record_run w s s1 _ _ _ _ sid Hsid (proj1 Hframe)) in Hrun.
    exists sid. intros k.
    destruct (pop_each_cases (suppressed s service_name)
                (built_record w s service_name function_name args kwargs sid))
      as [[Hnd Hin]|(before & field & after & Hsplit & Hnd & Hin & Habs)].
    + destruct (pop_each_present _ _ Hnd Hin) as (r' & Hr' & Hlookup).
      rewrite Hr' in Hrun. injection Hrun as <- _.
      rewrite Hlookup, built_record_lookup. reflexivity.
    + rewrite Hsplit, (pop_each_absent _ _ _ _ Hnd Hin Habs) in Hrun. discriminate Hrun.
Qed.

Lemma overlay_merge_example_witness :
  endpoints (api (new_state payu_endpoints None)) = payu_endpoints /\
  exists st',
    (add_extra_fields "payu" (py_dict {[ "model" := PyStr "X"; "n" := PyInt 2 ]}) ;;
     remove_fields "payu" (PyList [PyStr "session_id"; PyStr "name"]) ;;
     _create_telemetry_record offline_world "payu" "_test" (PyList []) (py_dict ∅))
      (new_state payu_endpoints None) =
    (Ok {[ "function" := PyStr "_test"; "args" := PyList []; "kwargs" := py_dict ∅;
           "model" := PyStr "X"; "n" := PyInt 2 ]}, st').
Proof.
  split; [reflexivity|].
  apply (overlay_merge_example offline_world (new_state payu_endpoints None)).
  reflexivity.
Defined.

(** C2, as the code has it.  A delivery that fails (the transport raises
    RequestError, or the status is outside 200..299) never reaches the
    caller as an exception, and the coroutine, when it is run, ends it in
    one RuntimeWarning.  With a running loop send_in_loop creates the task
    and gives no output; the loop, running the task, posts once and warns.
    Without a running loop the coroutine is queued on a new loop that
    nothing runs: the wait ends at the timeout, the call returns normally,
    and all it leaves is the printed line that the coroutine took too long.
    Nothing was posted and no warning is given, so on this path the failure
    is not converted into a warning: it is never met. *)
Theorem delivery_failure_without_loop_is_not_reported (w : World)
    (endpoint : string) (data : record) (e : exn) :
  delivery_failure (http_post w endpoint data) = Some e ->
  completes_after w (coroutine endpoint data) = None ->
  (forall st,
     fst (send_telemetry w endpoint data st) = Ok tt /\
     trace (snd (send_telemetry w endpoint data st)) =
     (trace st ++ [Printed (PostingTelemetryTo endpoint); Posted endpoint data;
                   RuntimeWarning (RequestFailed e)])%list) /\
  (forall st tasks,
     running_loop st = Some tasks ->
     exists st',
       send_in_loop w endpoint data st = (Ok tt, st') /\
       trace st' = trace st /\
       running_loop st' = Some (tasks ++ [coroutine endpoint data])%list) /\
  (forall s rest,
     running_loop s = Some (coroutine endpoint data :: rest) ->
     exists s',
       loop_step w s = (Ok tt, s') /\
       trace s' =
       (trace s ++ [Printed (PostingTelemetryTo endpoint); Posted endpoint data;
                    RuntimeWarning (RequestFailed e);
                    TaskFinished (coroutine endpoint data) (Ok tt)])%list /\
       running_loop s' = Some rest) /\
  (forall st,
     running_loop st = None ->
     exists st',
       send_in_loop w endpoint data st = (Ok tt, st') /\
       trace st' = (trace st ++ [Printed CoroutineTookTooLong])%list /\
       warnings (trace st') = warnings (trace st) /\
       posts (trace st') = posts (trace st) /\
       idle_loops st' = (idle_loops st ++ [[coroutine endpoint data]])%list /\
       waited_ms st' = (waited_ms st + timeout_ms)%N) /\
  (forall service_name function_name args kwargs st e' st',
     send_api_request w service_name function_name args kwargs st = (Raise e', st') ->
     is_KeyError e' = true).
Proof.
  intros Hfail Hnever.
  split.
  { intros st. rewrite (send_telemetry_failure w endpoint data st e Hfail).
    split; [reflexivity|]. cbn [snd]. apply logs_frame. }
  split.
  { intros st tasks Hloop. eexists.
    split; [apply (send_in_loop_running w _ _ _ tasks Hloop)|].
    split; reflexivity. }
  split.
  { intros s rest Hs. eexists. split.
    - unfold loop_step, bind, gets, modify. rewrite Hs.
      unfold run. cbn [co_endpoint co_data coroutine].
      rewrite (send_telemetry_failure w endpoint data _ e Hfail). reflexivity.
    - split; [|reflexivity]. cbn. rewrite <- !app_assoc. reflexivity. }
  split.
  { intros st Hloop. eexists.
    split; [apply send_in_loop_timeout; [exact Hloop | rewrite Hnever; exact I]|].
    cbn -[posts warnings]. split; [reflexivity|].
    unfold warnings, posts. rewrite !filter_app. cbn. rewrite !app_nil_r.
    repeat split. }
  intros service_name function_name args kwargs st e' st' Hrun.
  destruct (send_api_request_outcome w st service_name function_name args kwargs)
    as (r & st'' & Heq & Hr & _).
  rewrite Heq in Hrun. injection Hrun as -> _. exact Hr.
Qed.

Lemma delivery_failure_without_loop_is_not_reported_witness :
  exists st',
    send_in_loop offline_world "http://localhost:8000/payu/update" ∅
      (new_state payu_endpoints None) = (Ok tt, st') /\
    trace st' = [Printed CoroutineTookTooLong] /\
    warnings (trace st') = [] /\
    posts (trace st') = 0.
Proof.
  destruct (delivery_failure_without_loop_is_not_reported offline_world
              "http://localhost:8000/payu/update" ∅ (RequestError "connection refused")
              eq_refl eq_refl) as (_ & _ & _ & Hnone & _).
  destruct (Hnone (new_state payu_endpoints None) eq_refl)
    as (st' & Hrun & Htrace & Hwarn & Hposts & _).
  exists st'. split; [exact Hrun|]. split; [exact Htrace|].
  split; [exact Hwarn | exact Hposts].
Defined.

Example unreachable_server_no_loop :
  send_api_request offline_world "payu" "_test" (PyList []) (py_dict ∅)
    (new_state payu_endpoints None) =
  let r := base_record "alice" "_test" (PyList []) (py_dict ∅)
             (PyStr "4412189eae1acec805b3ad40b355aee68a3f06efef38c70fe34678376484bace") in
  (Ok tt,
   log (Printed CoroutineTookTooLong)
     (after_wait (SERVER_URL ++ "/payu/update") r timeout_ms
        (with_api (set_last_record (Some r))
           (cached "4412189eae1acec805b3ad40b355aee68a3f06efef38c70fe34678376484bace"
                   (tick (new_state payu_endpoints None)))))).
Proof.
  rewrite (send_api_request_known offline_world (new_state payu_endpoints None) _
             "payu" "_test" (PyList []) (py_dict ∅) _ "/payu/update"
             (SessionID_new_first offline_world (new_state payu_endpoints None) eq_refl)
             eq_refl eq_refl).
  rewrite offline_first_session_id by reflexivity.
  reflexivity.
Qed.

(** C3 as stated fails for send_api_request: the call for the unknown
    service "nope" raises KeyError, and yet _last_record, unset before the
    call, holds the record built for "nope" after it, and the session
    identifier has been computed. *)
Lemma failed_send_overwrites_last_record :
  ("nope" ∉ dom (endpoints (api (new_state payu_endpoints None)))) /\
  fst (send_api_request offline_world "nope" "_test" (PyList []) (py_dict ∅)
         (new_state payu_endpoints None)) =
  Raise (KeyError (EndpointNotFoundIn "nope" payu_endpoints)) /\
  _last_record (api (new_state payu_endpoints None)) = None /\
  _last_record
    (api (snd (send_api_request offline_world "nope" "_test" (PyList []) (py_dict ∅)
                 (new_state payu_endpoints None)))) =
  Some (base_record "alice" "_test" (PyList []) (py_dict ∅)
          (PyStr "4412189eae1acec805b3ad40b355aee68a3f06efef38c70fe34678376484bace")).
Proof.
  split.
  { cbn. unfold payu_endpoints. set_solver. }
  rewrite (send_api_request_unknown offline_world (new_state payu_endpoints None) _
             "nope" "_test" (PyList []) (py_dict ∅) _
             (SessionID_new_first offline_world (new_state payu_endpoints None) eq_refl)
             eq_refl eq_refl).
  rewrite offline_first_session_id by reflexivity.
  repeat split.
Qed.

(** C3, amended.  For a service that is not a key of endpoints:
    add_extra_fields raises KeyError and leaves the state as it was;
    send_api_request raises KeyError too, creates no task and posts nothing,
    and leaves endpoints, the server URL, the overlays and the suppression
    lists as they were, but it builds the record first: when the build
    succeeds the KeyError is the one for the endpoint and _last_record is
    the record just built; when the build stops at a missing suppressed
    field the KeyError is the one for that field and _last_record is as it
    was.  The session identifier may have been computed on the way. *)
Theorem unknown_service_is_refused (w : World) (st : State) (service_name : string) :
  service_name ∉ dom (endpoints (api st)) ->
  (forall fields : gmap string pyval,
     add_extra_fields service_name (py_dict fields) st =
     (Raise (KeyError (EndpointNotFound service_name)), st)) /\
  (forall function_name args kwargs,
     exists a sid st1 st',
       SessionID_new w st = (Ok (PyStr sid), st1) /\
       send_api_request w service_name function_name args kwargs st =
       (Raise (KeyError a), st') /\
       endpoints (api st') = endpoints (api st) /\
       _server_url (api st') = _server_url (api st) /\
       _extra_fields (api st') = _extra_fields (api st) /\
       _pop_fields (api st') = _pop_fields (api st) /\
       running_loop st' = running_loop st /\
       idle_loops st' = idle_loops st /\
       trace st' = trace st /\
       waited_ms st' = waited_ms st /\
       match pop_each (suppressed st service_name)
               (built_record w st service_name function_name args kwargs sid) with
       | Ok r => a = EndpointNotFoundIn service_name (endpoints (api st)) /\
                 _last_record (api st') = Some r
       | Raise e => e = KeyError a /\ _last_record (api st') = _last_record (api st)
       end).
Proof.
  intros Hunknown. split.
  - intros fields. apply add_extra_fields_unknown, Hunknown.
  - intros function_name args kwargs.
    destruct (SessionID_new_total w st) as (sid & st1 & Hsid & Hframe).
    destruct Hframe as (Hapi & Hloop & Hidle & Htrace & Hwait).
    apply not_elem_of_dom in Hunknown.
    pose proof (send_api_request_unknown w st st1 service_name function_name args kwargs
                  sid Hsid Hapi Hunknown) as Hrun.
    destruct (pop_each_cases (suppressed st service_name)
                (built_record w st service_name function_name args kwargs sid))
      as [[Hnd Hin]|(before & field & after & Hsplit & Hnd & Hin & Habs)].
    + destruct (pop_each_present _ _ Hnd Hin) as (r & Hr & _).
      rewrite Hr in Hrun.
      exists (EndpointNotFoundIn service_name (endpoints (api st))), sid, st1,
             (with_api (set_last_record (Some r)) st1).
      rewrite Hr. cbn. rewrite Hapi. repeat split; assumption.
    + rewrite Hsplit, (pop_each_absent _ _ _ _ Hnd Hin Habs) in Hrun.
      exists (MissingKey field), sid, st1, st1.
      rewrite Hsplit, (pop_each_absent _ _ _ _ Hnd Hin Habs), Hapi.
      repeat split; assumption.
Qed.

Lemma unknown_service_is_refused_witness :
  ("nope" ∉ dom (endpoints (api (new_state payu_endpoints None)))) /\
  add_extra_fields "nope" (py_dict ∅) (new_state payu_endpoints None) =
  (Raise (KeyError (EndpointNotFound "nope")), new_state payu_endpoints None).
Proof.
  assert ("nope" ∉ dom (endpoints (api (new_state payu_endpoints None)))) as Hunknown.
  { cbn. unfold payu_endpoints. set_solver. }
  split; [exact Hunknown|].
  exact (proj1 (unknown_service_is_refused offline_world
                  (new_state payu_endpoints None) "nope" Hunknown) ∅).
Defined.

(** C4, as the code has it.  In a process that has not read the
    identifier yet, SessionID() returns the SHA-256 hexdigest of
    "<login>_<timestamp>" for the OS user name and the clock reading of that
    first access, a string of 64 hexadecimal characters, and a second
    SessionID() returns the same string without reading the clock again.
    create_session_id, called next, hashes the user name and the clock
    reading of its own call and nothing else: when the clock gives the
    reading of the first access once more, the value it returns is the
    cached identifier, not a different one. *)
Theorem raw_session_id_repeats_with_the_clock (w : World) (st : State) :
  SessionID_instance st = None ->
  now w (S (clock_reads st)) = now w (clock_reads st) ->
  let v := SHA256.sha256_hexdigest
             (getuser w ++ "_" ++ isoformat (now w (clock_reads st))) in
  (id1 <- SessionID_new w ;;
   id2 <- SessionID_new w ;;
   fresh <- create_session_id w ;;
   ret (id1, id2, fresh)) st =
  (Ok (PyStr v, PyStr v, v), tick (cached v (tick st))) /\
  (SessionID_new w ;; SessionID_new w) st = (Ok (PyStr v), cached v (tick st)) /\
  String.length v = 64 /\
  Forall (fun c => is_hex c = true) (list_ascii_of_string v).
Proof.
  intros Hunset Hsame v.
  assert (v <> "") as Hv.
  { intros Hv. pose proof (sha256_hexdigest_truthy
      (getuser w ++ "_" ++ isoformat (now w (clock_reads st)))) as H.
    fold v in H. rewrite Hv in H. discriminate H. }
  assert (SessionID_new w (cached v (tick st)) = (Ok (PyStr v), cached v (tick st)))
    as Hcached.
  { apply SessionID_new_cached; [reflexivity | exact Hv]. }
  pose proof (SessionID_new_first w st Hunset) as Hfirst.
  change (session_id_at w st) with v in Hfirst.
  split; [|split; [|split]].
  - rewrite (bind_Ok _ _ _ _ _ Hfirst), (bind_Ok _ _ _ _ _ Hcached).
    rewrite (bind_Ok _ _ _ _ _ (create_session_id_eq w (cached v (tick st)))).
    unfold ret, session_id_at. cbn [clock_reads cached set_session tick].
    rewrite Hsame. reflexivity.
  - rewrite (bind_Ok _ _ _ _ _ Hfirst). exact Hcached.
  - apply sha256_hexdigest_length.
  - apply sha256_hexdigest_hex.
Qed.

Lemma raw_session_id_repeats_with_the_clock_witness :
  let v := "094fb66f65671df19fc4642b6666b5c799faf4d4d52e419f5af15cea552e1e18" in
  (id1 <- SessionID_new coarse_clock_world ;;
   id2 <- SessionID_new coarse_clock_world ;;
   fresh <- create_session_id coarse_clock_world ;;
   ret (id1, id2, fresh)) (new_state payu_endpoints None) =
  (Ok (PyStr v, PyStr v, v), tick (cached v (tick (new_state payu_endpoints None)))).
Proof.
  cbn zeta.
  rewrite <- (coarse_clock_session_id (new_state payu_endpoints None)).
  exact (proj1 (raw_session_id_repeats_with_the_clock coarse_clock_world
                  (new_state payu_endpoints None) eq_refl eq_refl)).
Defined.

(** C5.  add_extra_fields and remove_fields replace what was configured
    for the service: a second call leaves only its own argument.  For a
    service that has an endpoint, add_extra_fields(service, {}) twice leaves
    the overlay empty after each call and the second call changes nothing;
    remove_fields(service, ["a"]) then remove_fields(service, ["b"]) leaves
    ["b"]. *)
Theorem configuration_replaces (st : State) (service : string) :
  service ∈ dom (endpoints (api st)) ->
  (exists st1,
     add_extra_fields service (py_dict ∅) st = (Ok tt, st1) /\
     _extra_fields (api st1) !! service = Some ∅ /\
     add_extra_fields service (py_dict ∅) st1 = (Ok tt, st1)) /\
  (forall first second : gmap string pyval,
     (add_extra_fields service (py_dict first) ;;
      add_extra_fields service (py_dict second)) st =
     add_extra_fields service (py_dict second) st /\
     _extra_fields (api (snd (add_extra_fields service (py_dict second) st))) !! service
     = Some second) /\
  (exists st2,
     (remove_fields service (PyList [PyStr "a"]) ;;
      remove_fields service (PyList [PyStr "b"])) st = (Ok tt, st2) /\
     _pop_fields (api st2) !! service = Some ["b"]) /\
  (forall first second : list string,
     (remove_fields service (PyList (PyStr <$> first)) ;;
      remove_fields service (PyList (PyStr <$> second))) st =
     remove_fields service (PyList (PyStr <$> second)) st /\
     _pop_fields (api (snd (remove_fields service (PyList (PyStr <$> second)) st)))
       !! service = Some second).
Proof.
  intros Hknown.
  assert (forall first second : gmap string pyval,
            (add_extra_fields service (py_dict first) ;;
             add_extra_fields service (py_dict second)) st =
            add_extra_fields service (py_dict second) st) as Hextra.
  { intros first second.
    rewrite (bind_Ok _ _ _ _ _ (add_extra_fields_known service first st Hknown)).
    rewrite !add_extra_fields_known by exact Hknown.
    rewrite with_api_with_api. unfold with_api, set_extra_fields. cbn.
    rewrite insert_insert_eq. reflexivity. }
  assert (forall first second : list string,
            (remove_fields service (PyList (PyStr <$> first)) ;;
             remove_fields service (PyList (PyStr <$> second))) st =
            remove_fields service (PyList (PyStr <$> second)) st) as Hpop.
  { intros first second.
    rewrite (bind_Ok _ _ _ _ _ (remove_fields_list service first st)).
    rewrite !remove_fields_list.
    rewrite with_api_with_api. unfold with_api, set_pop_fields. cbn.
    rewrite insert_insert_eq. reflexivity. }
  repeat split.
  - eexists. split; [apply add_extra_fields_known, Hknown|]. split.
    + cbn. apply lookup_insert_eq.
    + rewrite add_extra_fields_known by exact Hknown.
      rewrite with_api_with_api. unfold with_api, set_extra_fields. cbn.
      rewrite insert_insert_eq. reflexivity.
  - apply Hextra.
  - rewrite add_extra_fields_known by exact Hknown. cbn. apply lookup_insert_eq.
  - eexists. split.
    + etransitivity; [exact (Hpop ["a"] ["b"])|].
      apply (remove_fields_list service ["b"]).
    + cbn. apply lookup_insert_eq.
  - apply Hpop.
  - rewrite remove_fields_list. cbn. apply lookup_insert_eq.
Qed.

Lemma configuration_replaces_witness :
  "payu" ∈ dom (endpoints (api (new_state payu_endpoints None))) /\
  exists st2,
    (remove_fields "payu" (PyList [PyStr "a"]) ;;
     remove_fields "payu" (PyList [PyStr "b"])) (new_state payu_endpoints None)
    = (Ok tt, st2) /\
    _pop_fields (api st2) !! "payu" = Some ["b"].
Proof.
  assert ("payu" ∈ dom (endpoints (api (new_state payu_endpoints None)))) as Hknown.
  { cbn. unfold payu_endpoints. set_solver. }
  split; [exact Hknown|].
  exact (proj1 (proj2 (proj2
           (configuration_replaces (new_state payu_endpoints None) "payu" Hknown)))).
Defined.

(** C6.  The timeout given to future.result is 0.1 s.  send_in_loop
    returns normally in every case, and the caller has been blocked for at
    most that long: not at all when a loop is running; for the whole timeout
    when the wait times out, after which a line is printed and the coroutine
    is left queued; for the time the coroutine took when it ended in time,
    and then, if it raised, a line is printed instead of the exception being
    raised.  send_api_request blocks for at most the timeout as well, and
    add_extra_fields, remove_fields and _create_telemetry_record do not
    block. *)
Theorem wait_is_bounded (w : World) (endpoint : string) (data : record) (st : State) :
  timeout_ms = 100%N /\
  (exists st',
     send_in_loop w endpoint data st = (Ok tt, st') /\
     (waited_ms st <= waited_ms st')%N /\
     (waited_ms st' <= waited_ms st + timeout_ms)%N /\
     (is_Some (running_loop st) -> waited_ms st' = waited_ms st)) /\
  (running_loop st = None ->
   match completes_after w (coroutine endpoint data) with
   | Some t => (timeout_ms < t)%N
   | None => True
   end ->
   send_in_loop w endpoint data st =
   (Ok tt, log (Printed CoroutineTookTooLong) (after_wait endpoint data timeout_ms st))) /\
  (forall t, running_loop st = None ->
   completes_after w (coroutine endpoint data) = Some t ->
   (t <= timeout_ms)%N ->
   send_in_loop w endpoint data st =
   match send_telemetry w endpoint data (after_wait endpoint data t st) with
   | (Ok _, st') => (Ok tt, st')
   | (Raise e, st') =>
       (Ok tt, log (Printed (if is_TimeoutError e then CoroutineTookTooLong
                             else CoroutineRaised e)) st')
   end) /\
  (forall service_name function_name args kwargs,
     (waited_ms (snd (send_api_request w service_name function_name args kwargs st))
      <= waited_ms st + timeout_ms)%N) /\
  (forall service_name fields,
     waited_ms (snd (add_extra_fields service_name fields st)) = waited_ms st) /\
  (forall service fields,
     waited_ms (snd (remove_fields service fields st)) = waited_ms st) /\
  (forall service_name function_name args kwargs,
     waited_ms (snd (_create_telemetry_record w service_name function_name args kwargs st))
     = waited_ms st).
Proof.
  split; [reflexivity|]. split.
  { destruct (send_in_loop_returns w endpoint data st)
      as (st' & Hrun & _ & _ & Hlo & Hhi & Hloop).
    exists st'. auto. }
  split; [apply send_in_loop_timeout|].
  split; [intros t; apply send_in_loop_completed|].
  split.
  { intros service_name function_name args kwargs.
    destruct (send_api_request_outcome w st service_name function_name args kwargs)
      as (r & st' & -> & _ & Hle). exact Hle. }
  split; [intros; apply add_extra_fields_no_wait|].
  split; [intros; apply remove_fields_no_wait|].
  intros; apply create_record_no_wait.
Qed.

(** C7.  A suppressed field that is not in the record when the loop
    reaches it (it never was there, or an earlier turn removed it) makes
    _create_telemetry_record raise KeyError for that field, and nothing is
    stored as _last_record; when every suppressed field is there at its
    turn, the call returns the record without those fields and stores it.
    One of the two is always the case. *)
Theorem suppressed_field_must_be_present (w : World) (st : State)
    (service_name function_name : string) (args kwargs : pyval) :
  exists sid st1,
    SessionID_new w st = (Ok (PyStr sid), st1) /\
    same_but_session st st1 /\
    let built := built_record w st service_name function_name args kwargs sid in
    let pops := suppressed st service_name in
    (forall before field after,
        pops = (before ++ field :: after)%list ->
        NoDup before ->
        (forall f, f ∈ before -> is_Some (built !! f)) ->
        field ∈ before \/ built !! field = None ->
        _create_telemetry_record w service_name function_name args kwargs st =
        (Raise (KeyError (MissingKey field)), st1)) /\
    (NoDup pops ->
     (forall f, f ∈ pops -> is_Some (built !! f)) ->
     exists r,
       _create_telemetry_record w service_name function_name args kwargs st =
       (Ok r, with_api (set_last_record (Some r)) st1) /\
       forall k, r !! k = if decide (k ∈ pops) then None else built !! k) /\
    ((NoDup pops /\ forall f, f ∈ pops -> is_Some (built !! f)) \/
     exists before field after,
       pops = (before ++ field :: after)%list /\ NoDup before /\
       (forall f, f ∈ before -> is_Some (built !! f)) /\
       (field ∈ before \/ built !! field = None)).
Proof.
  destruct (SessionID_new_total w st) as (sid & st1 & Hsid & Hframe).
  exists sid, st1. split; [exact Hsid|]. split; [exact Hframe|].
  cbn zeta. split; [|split].
  - intros before field after Hsplit Hnd Hin Habs.
    rewrite (create_record_run w st st1 _ _ _ _ sid Hsid (proj1 Hframe)).
    rewrite Hsplit, (pop_each_absent _ _ _ _ Hnd Hin Habs). reflexivity.
  - intros Hnd Hin.
    destruct (pop_each_present _ _ Hnd Hin) as (r & Hr & Hlookup).
    exists r. split; [|exact Hlookup].
    rewrite (create_record_run w st st1 _ _ _ _ sid Hsid (proj1 Hframe)), Hr.
    reflexivity.
  - apply pop_each_cases.
Qed.

Example suppressed_twice_fails_at_second_turn :
  pop_each ["name"; "name"]
    (base_record "alice" "_test" (PyList []) (py_dict ∅) (PyStr "0")) =
  Raise (KeyError (MissingKey "name")).
Proof. reflexivity. Qed.

(** C8, the code at remove_fields("payu", "name"): the decorated function
    stores the four characters, not the one name, and the next record built
    for "payu" stops at the missing field "n". *)
Theorem single_string_is_split_into_characters (w : World) :
  exists st1 sid st2,
    remove_fields "payu" (PyStr "name") (new_state payu_endpoints None) = (Ok tt, st1) /\
    _pop_fields (api st1) !! "payu" = Some ["n"; "a"; "m"; "e"] /\
    SessionID_new w st1 = (Ok (PyStr sid), st2) /\
    _create_telemetry_record w "payu" "_test" (PyList []) (py_dict ∅) st1 =
    (Raise (KeyError (MissingKey "n")), st2).
Proof.
  eexists. destruct (SessionID_new_total w
    (snd (remove_fields "payu" (PyStr "name") (new_state payu_endpoints None))))
    as (sid & st2 & Hsid & Hframe).
  exists sid, st2. split; [reflexivity|]. split; [reflexivity|].
  split; [exact Hsid|].
  rewrite (create_record_run w _ st2 _ _ _ _ sid Hsid (proj1 Hframe)). reflexivity.
Qed.

(** C9.  add_extra_fields checks its [fields] argument before anything
    else: when it is not a dict whose keys are all str (a list, a dict with
    an int key, ...) the call raises pydantic's ValidationError, which is not
    the KeyError of an unknown service, whether or not the service is known,
    and the state is left as it was.  ValidationError is raised for
    exactly these arguments. *)
Theorem extra_fields_are_validated (st : State) (service_name : string) (fields : pyval) :
  ~ str_keyed fields ->
  add_extra_fields service_name fields st = (Raise ValidationError, st) /\
  is_KeyError ValidationError = false /\
  (forall v : pyval,
     fst (add_extra_fields service_name v st) = Raise ValidationError <->
     ~ str_keyed v).
Proof.
  intros Hbad. split; [apply add_extra_fields_invalid, Hbad|]. split; [reflexivity|].
  intros v. split.
  - intros Hrun Hv. destruct (validate_str_keyed v st Hv) as [m Hm].
    unfold add_extra_fields in Hrun. rewrite (bind_Ok _ _ _ _ _ Hm) in Hrun.
    unfold bind, gets in Hrun.
    destruct (decide (service_name ∈ dom (endpoints (api st)))); discriminate Hrun.
  - intros Hv. rewrite add_extra_fields_invalid by exact Hv. reflexivity.
Qed.

Lemma extra_fields_are_validated_witness :
  ~ str_keyed (PyList [PyStr "invalid"; PyStr "type"]) /\
  add_extra_fields "payu" (PyList [PyStr "invalid"; PyStr "type"])
    (new_state payu_endpoints None) =
  (Raise ValidationError, new_state payu_endpoints None).
Proof.
  assert (~ str_keyed (PyList [PyStr "invalid"; PyStr "type"])) as Hbad.
  { intros []. }
  split; [exact Hbad|].
  exact (proj1 (extra_fields_are_validated (new_state payu_endpoints None) "payu"
                  (PyList [PyStr "invalid"; PyStr "type"]) Hbad)).
Defined.

Example int_keyed_dict_is_rejected (st : State) :
  add_extra_fields "payu" (PyDict [(KInt 1, PyStr "x")]) st = (Raise ValidationError, st).
Proof.
  apply add_extra_fields_invalid. intros H.
  destruct (H (KInt 1) (PyStr "x")) as [s Hs]; [left | discriminate Hs].
Qed.

(** C10.  For a service with no entry in _extra_fields and none in
    _pop_fields, whether or not it is a key of endpoints,
    _create_telemetry_record returns the base record: the five keys name,
    function, args, kwargs and session_id, nothing merged, nothing removed. *)
Theorem unconfigured_service_gets_base_record (w : World) (st : State)
    (service_name function_name : string) (args kwargs : pyval) :
  _extra_fields (api st) !! service_name = None ->
  _pop_fields (api st) !! service_name = None ->
  exists sid st1,
    SessionID_new w st = (Ok (PyStr sid), st1) /\
    same_but_session st st1 /\
    let r := base_record (getuser w) function_name args kwargs (PyStr sid) in
    _create_telemetry_record w service_name function_name args kwargs st =
    (Ok r, with_api (set_last_record (Some r)) st1) /\
    dom r = {[ "name"; "function"; "args"; "kwargs"; "session_id" ]}.
Proof.
  intros Hextra Hpop.
  destruct (SessionID_new_total w st) as (sid & st1 & Hsid & Hframe).
  exists sid, st1. split; [exact Hsid|]. split; [exact Hframe|]. cbn zeta. split.
  - rewrite (create_record_run w st st1 _ _ _ _ sid Hsid (proj1 Hframe)).
    unfold suppressed, built_record. rewrite Hextra, Hpop. cbn [default pop_each].
    rewrite (left_id_L ∅ (∪)). reflexivity.
  - unfold base_record. rewrite !dom_insert_L, dom_empty_L. set_solver.
Qed.

Lemma unconfigured_service_gets_base_record_witness :
  _extra_fields (api (new_state payu_endpoints None)) !! "nope" = None /\
  _pop_fields (api (new_state payu_endpoints None)) !! "nope" = None /\
  exists sid st1,
    SessionID_new offline_world (new_state payu_endpoints None) = (Ok (PyStr sid), st1) /\
    _create_telemetry_record offline_world "nope" "_test" (PyList []) (py_dict ∅)
      (new_state payu_endpoints None) =
    (Ok (base_record "alice" "_test" (PyList []) (py_dict ∅) (PyStr sid)),
     with_api (set_last_record
                 (Some (base_record "alice" "_test" (PyList []) (py_dict ∅) (PyStr sid))))
              st1).
Proof.
  split; [reflexivity|]. split; [reflexivity|].
  destruct (unconfigured_service_gets_base_record offline_world
              (new_state payu_endpoints None) "nope" "_test" (PyList []) (py_dict ∅))
    as (sid & st1 & Hsid & _ & Hrun & _); [reflexivity | reflexivity |].
  exists sid, st1. split; [exact Hsid | exact Hrun].
Defined.

(** ** Further properties of api.py *)

Lemma validated_strs_strs_of (elements : list pyval) (st : State) :
  validated_strs elements st =
  match strs_of elements with
  | Some l => (Ok l, st)
  | None => (Raise ValidationError, st)
  end.
Proof.
  unfold strs_of. induction elements as [|v elements IH]; [reflexivity|].
  destruct v; try reflexivity.
  cbn. unfold bind. rewrite IH.
  destruct (mapM _ elements); reflexivity.
Qed.

(** X1.  remove_fields raises ValidationError, and leaves the state as it
    was, exactly when its argument cannot be iterated or yields an element
    that is not a str; otherwise it stores the elements, in the order the
    argument yields them (the items of a list or tuple, the code points of
    a str, the keys of a dict in insertion order), as the service's
    suppression list, for a service with or without an endpoint, and changes
    nothing else. *)
Theorem remove_fields_outcome (service : string) (fields : pyval) (st : State) :
  remove_fields service fields st =
  match iter fields ≫= strs_of with
  | Some l =>
      (Ok tt, with_api (fun h => set_pop_fields (<[service := l]> (_pop_fields h)) h) st)
  | None => (Raise ValidationError, st)
  end.
Proof.
  unfold remove_fields, validate_iterable_str, remove_fields_body.
  destruct (iter fields) as [elements|]; [|reflexivity].
  cbn. unfold bind at 1. cbn. unfold bind.
  rewrite validated_strs_strs_of.
  destruct (strs_of elements); reflexivity.
Qed.

Example remove_fields_edge_cases (st : State) :
  remove_fields "nope" (PyTuple [PyStr "a"; PyStr "b"]) st =
  (Ok tt, with_api (fun h => set_pop_fields (<["nope" := ["a"; "b"]]> (_pop_fields h)) h) st) /\
  remove_fields "nope" (PyList []) st =
  (Ok tt, with_api (fun h => set_pop_fields (<["nope" := []]> (_pop_fields h)) h) st) /\
  remove_fields "nope" (PyList [PyStr "a"; PyInt 1]) st = (Raise ValidationError, st) /\
  remove_fields "nope" (PyInt 5) st = (Raise ValidationError, st) /\
  remove_fields "nope" PyNone st = (Raise ValidationError, st) /\
  remove_fields "nope" (PyDict [(KStr "zz", PyInt 1); (KStr "yy", PyInt 2)]) st =
  (Ok tt, with_api (fun h => set_pop_fields (<["nope" := ["zz"; "yy"]]> (_pop_fields h)) h) st) /\
  remove_fields "nope" (PyDict [(KStr "a", PyInt 1); (KInt 2, PyInt 2)]) st =
  (Raise ValidationError, st) /\
  remove_fields "nope" (PyStr "né") st =
  (Ok tt, with_api (fun h => set_pop_fields (<["nope" := ["n"; "é"]]> (_pop_fields h)) h) st).
Proof. rewrite !remove_fields_outcome. repeat split. Qed.

Section MoreRecordFacts.

Variable w : World.

Lemma SessionID_new_with_api (f : ApiHandler -> ApiHandler) (st st1 : State) (r : pyval) :
  SessionID_new w st = (Ok r, st1) ->
  SessionID_new w (with_api f st) = (Ok r, with_api f st1).
Proof.
  intros H.
  destruct (SessionID_instance st) as [[[v|]]|] eqn:Hinst.
  - destruct (decide (v = "")) as [->|Hv].
    + rewrite (SessionID_new_empty_value w st Hinst) in H.
      rewrite (SessionID_new_empty_value w (with_api f st) Hinst).
      injection H as <- <-. reflexivity.
    + rewrite (SessionID_new_cached w st v Hinst Hv) in H.
      rewrite (SessionID_new_cached w (with_api f st) v Hinst Hv).
      injection H as <- <-. reflexivity.
  - rewrite (SessionID_new_no_value w st Hinst) in H.
    rewrite (SessionID_new_no_value w (with_api f st) Hinst).
    injection H as <- <-. reflexivity.
  - rewrite (SessionID_new_first w st Hinst) in H.
    rewrite (SessionID_new_first w (with_api f st) Hinst).
    injection H as <- <-. reflexivity.
Qed.

(** What _create_telemetry_record leaves alone, and what it stores. *)
Lemma create_record_frame (st st' : State) (service_name function_name : string)
    (args kwargs : pyval) (res : result record) :
  _create_telemetry_record w service_name function_name args kwargs st = (res, st') ->
  endpoints (api st') = endpoints (api st) /\
  _server_url (api st') = _server_url (api st) /\
  _extra_fields (api st') = _extra_fields (api st) /\
  _pop_fields (api st') = _pop_fields (api st) /\
  running_loop st' = running_loop st /\
  idle_loops st' = idle_loops st /\
  trace st' = trace st /\
  waited_ms st' = waited_ms st /\
  match res with
  | Ok r => _last_record (api st') = Some r
  | Raise _ => _last_record (api st') = _last_record (api st)
  end.
Proof.
  destruct (SessionID_new_total w st) as (sid & st1 & Hsid & Hframe).
  destruct Hframe as (Hapi & Hloop & Hidle & Htrace & Hwait).
  rewrite (create_record_run w st st1 _ _ _ _ sid Hsid Hapi).
  destruct (pop_each _ _) as [r|e]; intros [= <- <-]; cbn; rewrite ?Hapi;
    repeat split; assumption.
Qed.

Lemma create_record_lookup (st st' : State) (service_name function_name : string)
    (args kwargs : pyval) (r : record) :
  _create_telemetry_record w service_name function_name args kwargs st = (Ok r, st') ->
  exists sid,
    NoDup (suppressed st service_name) /\
    forall k,
      r !! k =
      if decide (k ∈ suppressed st service_name) then None
      else built_record w st service_name function_name args kwargs sid !! k.
Proof.
  intros Hrun.
  destruct (SessionID_new_total w st) as (sid & st1 & Hsid & Hframe).
  rewrite (create_record_run w st st1 _ _ _ _ sid Hsid (proj1 Hframe)) in Hrun.
  exists sid.
  destruct (pop_each_cases (suppressed st service_name)
              (built_record w st service_name function_name args kwargs sid))
    as [[Hnd Hin]|(before & field & after & Hsplit & Hnd & Hin & Habs)].
  - destruct (pop_each_present _ _ Hnd Hin) as (r' & Hr' & Hlookup).
    rewrite Hr' in Hrun. injection Hrun as <- _. split; [exact Hnd | exact Hlookup].
  - rewrite Hsplit, (pop_each_absent _ _ _ _ Hnd Hin Habs) in Hrun. discriminate Hrun.
Qed.

Lemma dom_base_record (name function_name : string) (args kwargs session_id : pyval) :
  dom (base_record name function_name args kwargs session_id) = base_keys.
Proof.
  unfold base_record, base_keys. rewrite !dom_insert_L, dom_empty_L. set_solver.
Qed.

End MoreRecordFacts.

(** X2.  The keys of a record that _create_telemetry_record returns are
    the five base keys and the keys of the service's overlay, without the
    suppressed ones; and the suppression list that let it succeed names no
    field twice. *)
Theorem record_keys (w : World) (st st' : State) (service_name function_name : string)
    (args kwargs : pyval) (r : record) :
  _create_telemetry_record w service_name function_name args kwargs st = (Ok r, st') ->
  dom r =
    (base_keys ∪ dom (default ∅ (_extra_fields (api st) !! service_name)))
    ∖ list_to_set (suppressed st service_name) /\
  NoDup (suppressed st service_name).
Proof.
  intros Hrun.
  destruct (create_record_lookup w _ _ _ _ _ _ _ Hrun) as (sid & Hnd & Hlookup).
  split; [|exact Hnd].
  apply set_eq. intros k.
  rewrite elem_of_dom, Hlookup, elem_of_difference, elem_of_list_to_set, elem_of_union.
  rewrite <- (dom_base_record (getuser w) function_name args kwargs (PyStr sid)).
  rewrite !elem_of_dom. unfold built_record. rewrite lookup_union.
  destruct (decide (k ∈ suppressed st service_name)) as [Hk|Hk].
  - split; [intros [? [=]] | intros [_ ?]; contradiction].
  - destruct (default ∅ _ !! k) as [x|], (base_record _ _ _ _ _ !! k) as [y|]; cbn;
      split; try (intros [? [=]]); try (intros [[[? [=]]|[? [=]]] _]); eauto.
Qed.

Lemma record_keys_witness :
  let st :=
    with_api (fun h =>
        set_pop_fields (<["payu" := ["session_id"; "model"]]> (_pop_fields h)) h)
      (with_api (fun h =>
           set_extra_fields
             (<["payu" := {[ "model" := PyStr "ACCESS-OM2"; "run" := PyInt 2 ]}]>
                (_extra_fields h)) h)
         (new_state payu_endpoints None)) in
  exists r st',
    _create_telemetry_record offline_world "payu" "_test" (PyList []) (py_dict ∅) st
    = (Ok r, st') /\
    dom r = {[ "name"; "function"; "args"; "kwargs"; "run" ]} /\
    NoDup ["session_id"; "model"].
Proof.
  intros st.
  destruct (_create_telemetry_record offline_world "payu" "_test" (PyList [])
              (py_dict ∅) st) as [[r|e] st'] eqn:Hrun.
  - exists r, st'. split; [reflexivity|].
    destruct (record_keys offline_world st st' "payu" "_test" (PyList []) (py_dict ∅) r
                Hrun) as [Hdom Hnd].
    split; [|exact Hnd]. rewrite Hdom. reflexivity.
  - exfalso.
    rewrite (create_record_run offline_world st _ "payu" "_test" (PyList []) (py_dict ∅) _
               (SessionID_new_first offline_world st eq_refl) eq_refl) in Hrun.
    rewrite offline_first_session_id in Hrun by reflexivity.
    discriminate Hrun.
Defined.

(** X3.  Configuring one service does not change what is built for
    another: after add_extra_fields and remove_fields for a service B that
    has an endpoint, _create_telemetry_record for any other service A
    returns, or raises, what it would have without them. *)
Theorem other_service_is_not_affected (w : World) (st : State) (A B : string)
    (extra : gmap string pyval) (pops : list string)
    (function_name : string) (args kwargs : pyval) :
  A <> B ->
  B ∈ dom (endpoints (api st)) ->
  fst ((add_extra_fields B (py_dict extra) ;;
        remove_fields B (PyList (PyStr <$> pops)) ;;
        _create_telemetry_record w A function_name args kwargs) st) =
  fst (_create_telemetry_record w A function_name args kwargs st).
Proof.
  intros Hne Hknown.
  rewrite (bind_Ok _ _ _ _ _ (add_extra_fields_known B extra st Hknown)).
  rewrite (bind_Ok _ _ _ _ _ (remove_fields_list B pops _)).
  rewrite with_api_with_api.
  match goal with |- context [ with_api ?g st ] => set (f := g) end.
  destruct (SessionID_new_total w st) as (sid & st1 & Hsid & Hframe).
  pose proof (SessionID_new_with_api w f st st1 _ Hsid) as Hsid'.
  rewrite (create_record_run w st st1 _ _ _ _ sid Hsid (proj1 Hframe)).
  rewrite (create_record_run w (with_api f st) (with_api f st1) _ _ _ _ sid Hsid').
  2:{ cbn. rewrite (proj1 Hframe). reflexivity. }
  unfold suppressed, built_record. subst f. cbn.
  rewrite !lookup_insert_ne by congruence.
  destruct (pop_each _ _); reflexivity.
Qed.

Lemma other_service_is_not_affected_witness :
  "catalog" <> "payu" /\
  "payu" ∈ dom (endpoints (api (new_state payu_endpoints None))) /\
  fst ((add_extra_fields "payu" (py_dict {[ "model" := PyStr "X" ]}) ;;
        remove_fields "payu" (PyList (PyStr <$> ["session_id"])) ;;
        _create_telemetry_record offline_world "catalog" "_test" (PyList []) (py_dict ∅))
         (new_state payu_endpoints None)) =
  fst (_create_telemetry_record offline_world "catalog" "_test" (PyList []) (py_dict ∅)
         (new_state payu_endpoints None)).
Proof.
  assert ("catalog" <> "payu") as Hne by discriminate.
  assert ("payu" ∈ dom (endpoints (api (new_state payu_endpoints None)))) as Hknown.
  { cbn. unfold payu_endpoints. set_solver. }
  split; [exact Hne|]. split; [exact Hknown|].
  exact (other_service_is_not_affected offline_world (new_state payu_endpoints None)
           "catalog" "payu" {[ "model" := PyStr "X" ]} ["session_id"]
           "_test" (PyList []) (py_dict ∅) Hne Hknown).
Defined.

Section MoreSendFacts.

Variable w : World.

(** A send, once its record is built and its endpoint found, is the hand
    over to send_in_loop with the URL made of the server URL and the path. *)
Lemma send_api_request_after_build (st st1 : State) (service_name function_name : string)
    (args kwargs : pyval) (r : record) (path : string) :
  _create_telemetry_record w service_name function_name args kwargs st = (Ok r, st1) ->
  endpoints (api st) !! service_name = Some path ->
  send_api_request w service_name function_name args kwargs st =
  send_in_loop w (_server_url (api st) ++ path) r st1.
Proof.
  intros Hrun Hpath.
  destruct (create_record_frame w _ _ _ _ _ _ _ Hrun) as (Heps & Hurl & _).
  unfold send_api_request. rewrite (bind_Ok _ _ _ _ _ Hrun).
  unfold bind, gets, server_url, ret. rewrite Heps, Hpath. cbn. rewrite Hurl.
  reflexivity.
Qed.

Lemma send_api_request_build_fails (st st1 : State) (service_name function_name : string)
    (args kwargs : pyval) (e : exn) :
  _create_telemetry_record w service_name function_name args kwargs st = (Raise e, st1) ->
  send_api_request w service_name function_name args kwargs st = (Raise e, st1).
Proof. intros Hrun. apply bind_Raise, Hrun. Qed.

Lemma posts_app (tr1 tr2 : list event) : posts (tr1 ++ tr2) = posts tr1 + posts tr2.
Proof. unfold posts. rewrite filter_app, length_app. reflexivity. Qed.

(** A run of the coroutine posts once, whatever comes of it. *)
Lemma send_telemetry_posts_once (endpoint : string) (data : record) (st : State) :
  exists res evs,
    send_telemetry w endpoint data st = (res, logs evs st) /\ posts evs = 1.
Proof.
  destruct (delivery_failure (http_post w endpoint data)) as [e|] eqn:Hfail.
  - eexists _, _. split; [apply send_telemetry_failure, Hfail | reflexivity].
  - unfold delivery_failure in Hfail.
    destruct (http_post w endpoint data) as [e'|status] eqn:Hpost.
    + destruct (is_request_or_status_error e') eqn:He; [discriminate|].
      exists (Raise e'), [Printed (PostingTelemetryTo endpoint); Posted endpoint data].
      split; [|reflexivity].
      unfold send_telemetry, try_except, client_post, raise_for_status,
        bind, modify, raise, ret.
      rewrite Hpost. cbn. rewrite He. reflexivity.
    + destruct (is_success status) eqn:Hok; [|discriminate].
      eexists _, _.
      split; [apply (send_telemetry_success w _ _ _ status Hpost Hok) | reflexivity].
Qed.

Lemma send_in_loop_posts (endpoint : string) (data : record) (st : State) :
  posts (trace (snd (send_in_loop w endpoint data st))) <= posts (trace st) + 1 /\
  (is_Some (running_loop st) ->
   trace (snd (send_in_loop w endpoint data st)) = trace st).
Proof.
  destruct (running_loop st) as [tasks|] eqn:Hloop.
  - rewrite (send_in_loop_running w _ _ _ tasks Hloop). cbn -[posts]. split; [lia | reflexivity].
  - split; [|intros [? [=]]].
    destruct (completes_after w (coroutine endpoint data)) as [t|] eqn:Ht.
    + destruct (decide (t <= timeout_ms)%N) as [Hle|Hgt].
      * rewrite (send_in_loop_completed w _ _ _ t Hloop Ht Hle).
        destruct (send_telemetry_posts_once endpoint data (after_wait endpoint data t st))
          as (res & evs & -> & Hone).
        pose proof (logs_frame evs (after_wait endpoint data t st))
          as (_ & _ & _ & _ & _ & Htrace & _).
        destruct res as [[]|e]; cbn -[posts]; rewrite Htrace, ?posts_app;
          cbn -[posts]; rewrite ?posts_app, Hone;
          try change (posts [Printed _]) with 0; lia.
      * rewrite send_in_loop_timeout; [|exact Hloop | rewrite Ht; lia].
        cbn -[posts]. rewrite posts_app. change (posts [Printed CoroutineTookTooLong]) with 0. lia.
    + rewrite send_in_loop_timeout; [|exact Hloop | rewrite Ht; exact I].
      cbn -[posts]. rewrite posts_app. change (posts [Printed CoroutineTookTooLong]) with 0. lia.
Qed.

End MoreSendFacts.

(** X4.  With a loop running, a send for a service that has an endpoint
    and whose record can be built creates exactly one task, for the URL
    made of the current server URL followed by the service's path and for
    the record that was built; that record is _last_record; nothing is
    printed or posted during the call and the caller is not blocked. *)
Theorem send_creates_one_task (w : World) (st st1 : State) (tasks : list Coroutine)
    (service_name function_name : string) (args kwargs : pyval)
    (r : record) (path : string) :
  running_loop st = Some tasks ->
  endpoints (api st) !! service_name = Some path ->
  _create_telemetry_record w service_name function_name args kwargs st = (Ok r, st1) ->
  send_api_request w service_name function_name args kwargs st =
  (Ok tt,
   set_running_loop
     (Some (tasks ++ [coroutine (_server_url (api st) ++ path) r])%list) st1) /\
  _last_record (api st1) = Some r /\
  trace st1 = trace st /\
  waited_ms st1 = waited_ms st.
Proof.
  intros Hloop Hpath Hrun.
  destruct (create_record_frame w _ _ _ _ _ _ _ Hrun)
    as (_ & _ & _ & _ & Hloop1 & _ & Htrace & Hwait & Hlast).
  rewrite (send_api_request_after_build w _ _ _ _ _ _ _ _ Hrun Hpath).
  rewrite (send_in_loop_running w _ _ st1 tasks) by (rewrite Hloop1; exact Hloop).
  auto.
Qed.

Lemma send_creates_one_task_witness :
  let r := base_record "alice" "_test" (PyList []) (py_dict ∅)
             (PyStr "4412189eae1acec805b3ad40b355aee68a3f06efef38c70fe34678376484bace") in
  let st1 := with_api (set_last_record (Some r))
               (cached "4412189eae1acec805b3ad40b355aee68a3f06efef38c70fe34678376484bace"
                       (tick (new_state payu_endpoints (Some [])))) in
  send_api_request offline_world "payu" "_test" (PyList []) (py_dict ∅)
    (new_state payu_endpoints (Some [])) =
  (Ok tt,
   set_running_loop (Some [coroutine (SERVER_URL ++ "/payu/update") r]) st1).
Proof.
  cbn zeta.
  refine (proj1 (send_creates_one_task offline_world
                   (new_state payu_endpoints (Some [])) _ [] "payu" "_test"
                   (PyList []) (py_dict ∅) _ "/payu/update" eq_refl eq_refl _)).
  rewrite (create_record_run offline_world (new_state payu_endpoints (Some [])) _
             "payu" "_test" (PyList []) (py_dict ∅) _
             (SessionID_new_first offline_world (new_state payu_endpoints (Some [])) eq_refl)
             eq_refl).
  rewrite offline_first_session_id by reflexivity. reflexivity.
Defined.

(** X5.  Without a running loop, when nothing runs the new loop the send
    is queued on, a send whose record can be built returns after the whole
    timeout, has posted nothing, prints that the coroutine took too long,
    and leaves one more loop behind with the coroutine still queued. *)
Theorem send_without_loop_posts_nothing (w : World) (st st1 : State)
    (service_name function_name : string) (args kwargs : pyval)
    (r : record) (path : string) :
  running_loop st = None ->
  endpoints (api st) !! service_name = Some path ->
  _create_telemetry_record w service_name function_name args kwargs st = (Ok r, st1) ->
  completes_after w (coroutine (_server_url (api st) ++ path) r) = None ->
  exists st',
    send_api_request w service_name function_name args kwargs st = (Ok tt, st') /\
    trace st' = (trace st ++ [Printed CoroutineTookTooLong])%list /\
    posts (trace st') = posts (trace st) /\
    waited_ms st' = (waited_ms st + timeout_ms)%N /\
    idle_loops st' =
      (idle_loops st ++ [[coroutine (_server_url (api st) ++ path) r]])%list /\
    _last_record (api st') = Some r.
Proof.
  intros Hloop Hpath Hrun Hnever.
  destruct (create_record_frame w _ _ _ _ _ _ _ Hrun)
    as (_ & _ & _ & _ & Hloop1 & Hidle & Htrace & Hwait & Hlast).
  rewrite (send_api_request_after_build w _ _ _ _ _ _ _ _ Hrun Hpath).
  rewrite send_in_loop_timeout; [|rewrite Hloop1; exact Hloop | rewrite Hnever; exact I].
  eexists. split; [reflexivity|]. cbn -[posts].
  rewrite Htrace, Hwait, Hidle, posts_app.
  change (posts [Printed CoroutineTookTooLong]) with 0.
  repeat split; [lia | exact Hlast].
Qed.

Lemma send_without_loop_posts_nothing_witness :
  exists st',
    send_api_request offline_world "payu" "_test" (PyList []) (py_dict ∅)
      (new_state payu_endpoints None) = (Ok tt, st') /\
    trace st' = [Printed CoroutineTookTooLong] /\
    waited_ms st' = 100%N.
Proof.
  destruct (send_without_loop_posts_nothing offline_world
              (new_state payu_endpoints None) _ "payu" "_test" (PyList []) (py_dict ∅)
              _ "/payu/update" eq_refl eq_refl
              (create_record_run offline_world (new_state payu_endpoints None) _
                 "payu" "_test" (PyList []) (py_dict ∅) _
                 (SessionID_new_first offline_world (new_state payu_endpoints None) eq_refl)
                 eq_refl)
              eq_refl)
    as (st' & Hrun & Htrace & _ & Hwait & _).
  exists st'. split; [exact Hrun|]. split; [exact Htrace | exact Hwait].
Defined.

(** X6.  A send is tried once: a call of send_api_request adds at most
    one POST to what has been sent, and none when a loop is running (the
    task posts later); the loop running a task posts exactly once for it,
    whatever the answer. *)
Theorem a_send_posts_at_most_once (w : World) (st : State)
    (service_name function_name : string) (args kwargs : pyval) :
  posts (trace (snd (send_api_request w service_name function_name args kwargs st)))
  <= posts (trace st) + 1 /\
  (is_Some (running_loop st) ->
   trace (snd (send_api_request w service_name function_name args kwargs st)) = trace st) /\
  (forall c rest s,
     running_loop s = Some (c :: rest) ->
     exists s',
       loop_step w s = (Ok tt, s') /\
       posts (trace s') = posts (trace s) + 1 /\
       running_loop s' = Some rest).
Proof.
  split; [|split].
  - destruct (_create_telemetry_record w service_name function_name args kwargs st)
      as [[r|e] st1] eqn:Hrun.
    + destruct (create_record_frame w _ _ _ _ _ _ _ Hrun)
        as (Heps & _ & _ & _ & _ & _ & Htrace & _).
      destruct (endpoints (api st) !! service_name) as [path|] eqn:Hpath.
      * rewrite (send_api_request_after_build w _ _ _ _ _ _ _ _ Hrun Hpath).
        pose proof (send_in_loop_posts w (_server_url (api st) ++ path) r st1) as [H _].
        rewrite Htrace in H. exact H.
      * unfold send_api_request. rewrite (bind_Ok _ _ _ _ _ Hrun).
        unfold bind, gets. rewrite Heps, Hpath. cbn -[posts]. rewrite Htrace. lia.
    + destruct (create_record_frame w _ _ _ _ _ _ _ Hrun)
        as (_ & _ & _ & _ & _ & _ & Htrace & _).
      rewrite (send_api_request_build_fails w _ _ _ _ _ _ _ Hrun). cbn -[posts].
      rewrite Htrace. lia.
  - intros Hloop.
    destruct (_create_telemetry_record w service_name function_name args kwargs st)
      as [[r|e] st1] eqn:Hrun.
    + destruct (create_record_frame w _ _ _ _ _ _ _ Hrun)
        as (Heps & _ & _ & _ & Hloop1 & _ & Htrace & _).
      destruct (endpoints (api st) !! service_name) as [path|] eqn:Hpath.
      * rewrite (send_api_request_after_build w _ _ _ _ _ _ _ _ Hrun Hpath).
        pose proof (send_in_loop_posts w (_server_url (api st) ++ path) r st1) as [_ H].
        rewrite H by (rewrite Hloop1; exact Hloop). exact Htrace.
      * unfold send_api_request. rewrite (bind_Ok _ _ _ _ _ Hrun).
        unfold bind, gets. rewrite Heps, Hpath. cbn. exact Htrace.
    + destruct (create_record_frame w _ _ _ _ _ _ _ Hrun)
        as (_ & _ & _ & _ & _ & _ & Htrace & _).
      rewrite (send_api_request_build_fails w _ _ _ _ _ _ _ Hrun). exact Htrace.
  - intros c rest s Hs. unfold loop_step, bind, gets, modify. rewrite Hs.
    unfold run.
    destruct (send_telemetry_posts_once w (co_endpoint c) (co_data c)
                (set_running_loop (Some rest) s)) as (res & evs & -> & Hone).
    pose proof (logs_frame evs (set_running_loop (Some rest) s))
      as (_ & _ & _ & Hloop & _ & Htrace & _).
    eexists. split; [reflexivity|]. cbn -[posts].
    rewrite Htrace, Hloop, !posts_app, Hone.
    change (posts [TaskFinished c res]) with 0.
    change (trace (set_running_loop (Some rest) s)) with (trace s).
    split; [lia | reflexivity].
Qed.

(** ** Further properties of the session identifier and of suppression *)

Section MoreSessionFacts.

Variable w : World.

(** Whatever the state, SessionID() returns a non-empty str and leaves it
    cached, having read the clock at most once. *)
Lemma SessionID_new_caches (st : State) :
  exists v st1,
    SessionID_new w st = (Ok (PyStr v), st1) /\
    v <> "" /\
    SessionID_instance st1 = Some {| value := Some v |} /\
    same_but_session st st1 /\
    clock_reads st1 <= S (clock_reads st).
Proof.
  assert (session_id_at w st <> "") as Hne.
  { intros H. pose proof (sha256_hexdigest_truthy
      (session_str (getuser w) (now w (clock_reads st)))) as Ht.
    unfold session_id_at in H. rewrite H in Ht. discriminate Ht. }
  destruct (SessionID_instance st) as [[[v|]]|] eqn:H.
  - destruct (decide (v = "")) as [->|Hv].
    + eexists _, _. split; [apply SessionID_new_empty_value, H|].
      split; [exact Hne|]. cbn. repeat split. lia.
    + eexists _, _. split; [apply SessionID_new_cached; eassumption|].
      split; [exact Hv|]. split; [exact H|]. repeat split. lia.
  - eexists _, _. split; [apply SessionID_new_no_value, H|].
    split; [exact Hne|]. cbn. repeat split. lia.
  - eexists _, _. split; [apply SessionID_new_first, H|].
    split; [exact Hne|]. cbn. repeat split. lia.
Qed.

Lemma create_record_with_session (st s1 st' : State) (service_name function_name : string)
    (args kwargs : pyval) (sid : string) (r : record) :
  SessionID_new w st = (Ok (PyStr sid), s1) ->
  api s1 = api st ->
  _create_telemetry_record w service_name function_name args kwargs st = (Ok r, st') ->
  st' = with_api (set_last_record (Some r)) s1 /\
  forall k,
    r !! k =
    if decide (k ∈ suppressed st service_name) then None
    else built_record w st service_name function_name args kwargs sid !! k.
Proof.
  intros Hsid Hapi Hrun.
  rewrite (create_record_run w st s1 _ _ _ _ sid Hsid Hapi) in Hrun.
  destruct (pop_each_cases (suppressed st service_name)
              (built_record w st service_name function_name args kwargs sid))
    as [[Hnd Hin]|(before & field & after & Hsplit & Hnd & Hin & Habs)].
  - destruct (pop_each_present _ _ Hnd Hin) as (r' & Hr' & Hlookup).
    rewrite Hr' in Hrun. injection Hrun as <- <-. split; [reflexivity | exact Hlookup].
  - rewrite Hsplit, (pop_each_absent _ _ _ _ Hnd Hin Habs) in Hrun. discriminate Hrun.
Qed.

End MoreSessionFacts.

(** X7.  From every state, SessionID() returns a non-empty str, reads the
    clock at most once, and leaves the identifier cached: the next
    SessionID() returns the same str and changes nothing, and a
    send_api_request in between leaves the identifier as it is. *)
Theorem session_id_is_stable (w : World) (st : State) :
  exists v st1,
    SessionID_new w st = (Ok (PyStr v), st1) /\
    v <> "" /\
    clock_reads st1 <= S (clock_reads st) /\
    SessionID_new w st1 = (Ok (PyStr v), st1) /\
    forall service_name function_name args kwargs,
      SessionID_new w
        (snd (send_api_request w service_name function_name args kwargs st1)) =
      (Ok (PyStr v),
       snd (send_api_request w service_name function_name args kwargs st1)).
Proof.
  destruct (SessionID_new_caches w st) as (v & st1 & Hsid & Hv & Hinst & _ & Hclock).
  exists v, st1. split; [exact Hsid|]. split; [exact Hv|]. split; [exact Hclock|].
  split; [apply SessionID_new_cached; assumption|].
  intros service_name function_name args kwargs.
  apply SessionID_new_cached; [|exact Hv].
  apply send_api_request_keeps_session; assumption.
Qed.

(** X8.  Two records built one after the other carry the same
    session_id, a non-empty str, whatever the two services and functions
    are, as long as neither service suppresses or overlays that key. *)
Theorem records_share_the_session_id (w : World) (st st1 st2 : State)
    (A B fA fB : string) (argsA kwargsA argsB kwargsB : pyval) (r1 r2 : record) :
  _create_telemetry_record w A fA argsA kwargsA st = (Ok r1, st1) ->
  _create_telemetry_record w B fB argsB kwargsB st1 = (Ok r2, st2) ->
  "session_id" ∉ suppressed st A ->
  "session_id" ∉ suppressed st B ->
  default ∅ (_extra_fields (api st) !! A) !! "session_id" = None ->
  default ∅ (_extra_fields (api st) !! B) !! "session_id" = None ->
  exists v, v <> "" /\
    r1 !! "session_id" = Some (PyStr v) /\
    r2 !! "session_id" = Some (PyStr v).
Proof.
  intros Hrun1 Hrun2 HpA HpB HeA HeB.
  destruct (SessionID_new_caches w st) as (v & s1 & Hsid & Hv & Hinst & Hframe & _).
  destruct (create_record_with_session w st s1 st1 _ _ _ _ v r1 Hsid (proj1 Hframe) Hrun1)
    as (-> & Hlookup1).
  assert (SessionID_new w (with_api (set_last_record (Some r1)) s1)
          = (Ok (PyStr v), with_api (set_last_record (Some r1)) s1)) as Hsid2.
  { apply SessionID_new_cached; assumption. }
  destruct (create_record_with_session w _ _ st2 _ _ _ _ v r2 Hsid2 eq_refl Hrun2)
    as (_ & Hlookup2).
  exists v. split; [exact Hv|].
  rewrite Hlookup1, Hlookup2.
  unfold suppressed, built_record in *. cbn. rewrite (proj1 Hframe).
  destruct (decide _) as [?|_]; [contradiction|].
  destruct (decide _) as [?|_]; [contradiction|].
  rewrite !lookup_union, HeA, HeB. split; reflexivity.
Qed.

Lemma records_share_the_session_id_witness :
  let sid := "4412189eae1acec805b3ad40b355aee68a3f06efef38c70fe34678376484bace" in
  exists v, v <> "" /\
    base_record "alice" "f" (PyList []) (py_dict ∅) (PyStr sid) !! "session_id"
    = Some (PyStr v) /\
    base_record "alice" "g" (PyList []) (py_dict ∅) (PyStr sid) !! "session_id"
    = Some (PyStr v).
Proof.
  intros sid.
  set (st := new_state payu_endpoints None).
  set (r1 := base_record "alice" "f" (PyList []) (py_dict ∅) (PyStr sid)).
  set (r2 := base_record "alice" "g" (PyList []) (py_dict ∅) (PyStr sid)).
  set (st1 := with_api (set_last_record (Some r1)) (cached sid (tick st))).
  assert (_create_telemetry_record offline_world "payu" "f" (PyList []) (py_dict ∅) st
          = (Ok r1, st1)) as Hrun1.
  { rewrite (create_record_run offline_world st _ "payu" "f" (PyList []) (py_dict ∅) _
               (SessionID_new_first offline_world st eq_refl) eq_refl).
    rewrite offline_first_session_id by reflexivity. reflexivity. }
  assert (sid <> "") as Hv by discriminate.
  assert (_create_telemetry_record offline_world "nope" "g" (PyList []) (py_dict ∅) st1
          = (Ok r2, with_api (set_last_record (Some r2)) st1)) as Hrun2.
  { rewrite (create_record_run offline_world st1 st1 "nope" "g" (PyList []) (py_dict ∅) sid
               (SessionID_new_cached offline_world st1 sid eq_refl Hv) eq_refl).
    reflexivity. }
  apply (records_share_the_session_id offline_world st st1 _ "payu" "nope" "f" "g"
           (PyList []) (py_dict ∅) (PyList []) (py_dict ∅) r1 r2 Hrun1 Hrun2).
  - intros H. inversion H.
  - intros H. inversion H.
  - reflexivity.
  - reflexivity.
Defined.

Section MoreSuppressionFacts.

Variable w : World.

(** The fields of a suppression list are all in the record when their
    turn comes exactly when the list names no field twice and only keys of
    the record. *)
Lemma pop_each_Ok_iff (fields : list string) (telemetry_data : record) :
  (exists r, pop_each fields telemetry_data = Ok r) <->
  NoDup fields /\ list_to_set fields ⊆ dom telemetry_data.
Proof.
  split.
  - intros [r Hr].
    destruct (pop_each_cases fields telemetry_data)
      as [[Hnd Hin]|(before & field & after & -> & Hnd & Hin & Habs)].
    + split; [exact Hnd|]. intros k Hk. apply elem_of_list_to_set in Hk.
      apply elem_of_dom, Hin, Hk.
    + rewrite (pop_each_absent _ _ _ _ Hnd Hin Habs) in Hr. discriminate Hr.
  - intros [Hnd Hsub].
    destruct (pop_each_present fields telemetry_data Hnd) as (r & Hr & _).
    + intros f Hf. apply elem_of_dom, Hsub, elem_of_list_to_set, Hf.
    + exists r. exact Hr.
Qed.

Lemma pop_each_Permutation (l1 l2 : list string) (telemetry_data r : record) :
  l1 ≡ₚ l2 ->
  pop_each l1 telemetry_data = Ok r -> pop_each l2 telemetry_data = Ok r.
Proof.
  intros Hperm Hr.
  destruct (proj1 (pop_each_Ok_iff l1 telemetry_data) (ex_intro _ r Hr)) as [Hnd Hsub].
  assert (forall f, f ∈ l1 -> is_Some (telemetry_data !! f)) as Hin1.
  { intros f Hf. apply elem_of_dom, Hsub, elem_of_list_to_set, Hf. }
  destruct (pop_each_present l1 telemetry_data Hnd Hin1) as (r1 & Hr1 & Hlookup1).
  destruct (pop_each_present l2 telemetry_data) as (r2 & Hr2 & Hlookup2).
  { rewrite <- Hperm. exact Hnd. }
  { intros f Hf. apply Hin1. rewrite Hperm. exact Hf. }
  rewrite Hr2. rewrite Hr in Hr1. apply Ok_inj in Hr1. subst r1. f_equal.
  apply map_eq. intros k. rewrite Hlookup1, Hlookup2.
  destruct (decide (k ∈ l1)) as [H1|H1], (decide (k ∈ l2)) as [H2|H2];
    try reflexivity; exfalso; [apply H2; rewrite <- Hperm | apply H1; rewrite Hperm];
    assumption.
Qed.

Lemma dom_built_record (st : State) (service_name function_name : string)
    (args kwargs : pyval) (sid : string) :
  dom (built_record w st service_name function_name args kwargs sid) =
  base_keys ∪ dom (default ∅ (_extra_fields (api st) !! service_name)).
Proof.
  unfold built_record. rewrite dom_union_L, dom_base_record. apply (comm_L (∪)).
Qed.

End MoreSuppressionFacts.

(** X9.  _create_telemetry_record returns a record exactly when the
    service's suppression list names no field twice and names only base
    keys and keys of the service's overlay; otherwise it raises.  The
    function name, the arguments, the user and the clock play no part. *)
Theorem record_is_built_iff (w : World) (st : State) (service_name function_name : string)
    (args kwargs : pyval) :
  (exists r st', _create_telemetry_record w service_name function_name args kwargs st
                 = (Ok r, st')) <->
  NoDup (suppressed st service_name) /\
  list_to_set (suppressed st service_name) ⊆
    base_keys ∪ dom (default ∅ (_extra_fields (api st) !! service_name)).
Proof.
  destruct (SessionID_new_total w st) as (sid & st1 & Hsid & Hframe).
  rewrite (create_record_run w st st1 _ _ _ _ sid Hsid (proj1 Hframe)).
  rewrite <- (dom_built_record w st service_name function_name args kwargs sid).
  rewrite <- pop_each_Ok_iff.
  destruct (pop_each _ _) as [r|e].
  - split; intros _; eauto.
  - split; [intros (r & st' & [=]) | intros (r & [=])].
Qed.

(** X10.  The order of a suppression list does not matter to the record:
    after remove_fields with a list, and after remove_fields with the same
    fields in another order, _create_telemetry_record returns the same
    record, or raises in both cases. *)
Theorem suppression_order_is_irrelevant (w : World) (st : State) (service : string)
    (l1 l2 : list string) (function_name : string) (args kwargs : pyval) (r : record) :
  l1 ≡ₚ l2 ->
  fst ((remove_fields service (PyList (PyStr <$> l1)) ;;
        _create_telemetry_record w service function_name args kwargs) st) = Ok r <->
  fst ((remove_fields service (PyList (PyStr <$> l2)) ;;
        _create_telemetry_record w service function_name args kwargs) st) = Ok r.
Proof.
  assert (forall l l', l ≡ₚ l' ->
    fst ((remove_fields service (PyList (PyStr <$> l)) ;;
          _create_telemetry_record w service function_name args kwargs) st) = Ok r ->
    fst ((remove_fields service (PyList (PyStr <$> l')) ;;
          _create_telemetry_record w service function_name args kwargs) st) = Ok r) as Hone.
  { intros l l' Hperm.
    rewrite !(bind_Ok _ _ _ _ _ (remove_fields_list service _ st)).
    destruct (SessionID_new_total w st) as (sid & st1 & Hsid & Hframe).
    pose proof (fun l => SessionID_new_with_api w
      (fun h => set_pop_fields (<[service := l]> (_pop_fields h)) h) st st1 _ Hsid) as Hsid'.
    rewrite !(create_record_run w _ _ _ _ _ _ sid (Hsid' _))
      by (cbn; rewrite (proj1 Hframe); reflexivity).
    unfold suppressed, built_record. cbn. rewrite !lookup_insert_eq. cbn.
    destruct (pop_each l _) as [r1|e] eqn:H1; [|discriminate].
    rewrite (pop_each_Permutation l l' _ r1 Hperm H1). exact id. }
  intros Hperm. split; apply Hone; [exact Hperm | symmetry; exact Hperm].
Qed.

Lemma suppression_order_is_irrelevant_witness :
  ["args"; "kwargs"] ≡ₚ ["kwargs"; "args"] /\
  fst ((remove_fields "payu" (PyList (PyStr <$> ["kwargs"; "args"])) ;;
        _create_telemetry_record offline_world "payu" "f" (PyList []) (py_dict ∅))
         (new_state payu_endpoints None)) =
  Ok (delete "kwargs" (delete "args"
        (base_record "alice" "f" (PyList []) (py_dict ∅)
           (PyStr (session_id_at offline_world (new_state payu_endpoints None)))))).
Proof.
  assert (["args"; "kwargs"] ≡ₚ ["kwargs"; "args"]) as Hperm by apply Permutation_swap.
  split; [exact Hperm|].
  apply (proj1 (suppression_order_is_irrelevant offline_world
                  (new_state payu_endpoints None) "payu" ["args"; "kwargs"]
                  ["kwargs"; "args"] "f" (PyList []) (py_dict ∅) _ Hperm)).
  rewrite (bind_Ok _ _ _ _ _ (remove_fields_list "payu" _ _)).
  set (st := with_api _ _).
  rewrite (create_record_run offline_world st _ "payu" "f" (PyList []) (py_dict ∅) _
             (SessionID_new_first offline_world st eq_refl) eq_refl).
  reflexivity.
Defined.

(** ** decorators.py *)

Lemma w_bind_Ok {A B} (m : W A) (k : A -> W B) st a st' :
  m st = (Ok a, st') -> w_bind m k st = k a st'.
Proof. intros H. unfold w_bind. rewrite H. reflexivity. Qed.

Lemma w_bind_Raise {A B} (m : W A) (k : A -> W B) st e st' :
  m st = (Raise e, st') -> w_bind m k st = (Raise e, st').
Proof. intros H. unfold w_bind. rewrite H. reflexivity. Qed.

Lemma wrapped_nothing (st : Wrapped) : wrapped (core st) [] [] st = st.
Proof. destruct st. unfold wrapped. cbn. rewrite !app_nil_r. reflexivity. Qed.

Lemma w_lift_wrapped {A} (m : M A) (s : State) evs tasks (st : Wrapped) :
  w_lift m (wrapped s evs tasks st) = (fst (m s), wrapped (snd (m s)) evs tasks st).
Proof. unfold w_lift, wrapped. cbn. destruct (m s). reflexivity. Qed.

Lemma w_lift_Ok {A} (m : M A) (s s' : State) (a : A) evs tasks (st : Wrapped) :
  m s = (Ok a, s') ->
  w_lift m (wrapped s evs tasks st) = (Ok a, wrapped s' evs tasks st).
Proof. intros H. rewrite w_lift_wrapped, H. reflexivity. Qed.

Lemma w_emit_wrapped (ev : wrapper_event) (s : State) evs tasks (st : Wrapped) :
  w_emit ev (wrapped s evs tasks st) = (Ok tt, wrapped s (evs ++ [ev]) tasks st).
Proof. unfold w_emit, wrapped. cbn. rewrite app_assoc. reflexivity. Qed.

Lemma w_create_task_wrapped (c : Coroutine) (s : State) evs tasks (st : Wrapped) :
  w_create_task c (wrapped s evs tasks st) = (Ok tt, wrapped s evs (tasks ++ [c]) st).
Proof. unfold w_create_task, wrapped. cbn. rewrite app_assoc. reflexivity. Qed.

Section DecoratorFacts.

Variable w : World.
Variable send_takes : string -> record -> N.

(** The wrapper's coroutine, run to its end. *)
Lemma wrapper_send_telemetry_run (endpoint : string) (data : record)
    (s : State) evs tasks (st : Wrapped) :
  wrapper_send_telemetry w endpoint data (wrapped s evs tasks st) =
  (match wrapper_failure (http_post w endpoint data) with
   | Some e => Raise e
   | None => Ok tt
   end,
   wrapped s (evs ++ wrapper_output endpoint data (http_post w endpoint data)) tasks st).
Proof.
  unfold wrapper_send_telemetry.
  rewrite (w_bind_Ok _ _ _ _ _ (w_emit_wrapped _ _ _ _ _)).
  rewrite (w_bind_Ok _ _ _ _ _ (w_emit_wrapped _ _ _ _ _)).
  rewrite (w_bind_Ok _ _ _ _ _ (w_emit_wrapped _ _ _ _ _)).
  unfold w_try_except.
  rewrite (w_bind_Ok _ _ _ _ _ (w_emit_wrapped _ _ _ _ _)).
  unfold wrapper_failure, wrapper_output.
  destruct (http_post w endpoint data) as [e|status].
  - unfold w_raise. destruct (is_RequestError e).
    + rewrite w_emit_wrapped. rewrite <- !app_assoc. reflexivity.
    + rewrite <- !app_assoc. reflexivity.
  - destruct (is_success status); unfold w_ret, w_raise; cbn;
      rewrite <- !app_assoc; reflexivity.
Qed.

(** A call of the decorated function, once its record is built and the
    endpoint of its service found. *)
Lemma wrapper_after_build (service name : string)
    (func : list pyval -> gmap string pyval -> M pyval)
    (args : list pyval) (kwargs : gmap string pyval)
    (st : Wrapped) (r : record) (s1 : State) (path : string) :
  _create_telemetry_record w service name (PyTuple args) (py_dict kwargs) (core st)
  = (Ok r, s1) ->
  endpoints (api (core st)) !! service = Some path ->
  let url := _server_url (api (core st)) ++ path in
  let sending := WPrinted (SendingTelemetryDataTo url) in
  wrapper w send_takes service name func args kwargs st =
  match running_loop (core st) with
  | Some _ => w_lift (func args kwargs) (wrapped s1 [sending] [coroutine url r] st)
  | None =>
      let s2 := block (send_takes url r) s1 in
      let output := wrapper_output url r (http_post w url r) in
      match wrapper_failure (http_post w url r) with
      | Some e => (Raise e, wrapped s2 (sending :: output) [] st)
      | None =>
          w_lift (func args kwargs)
            (wrapped s2 (sending :: output ++ [WWarned EventLoopNotRunning]) [] st)
      end
  end.
Proof.
  intros Hbuild Hpath url sending.
  destruct (create_record_frame w _ _ _ _ _ _ _ Hbuild)
    as (Heps & Hurl & _ & _ & Hloop & _).
  unfold wrapper.
  rewrite <- (wrapped_nothing st) at 1.
  rewrite (w_bind_Ok _ _ _ _ _ (w_lift_Ok _ _ _ _ _ _ _ Hbuild)).
  rewrite (w_bind_Ok _ _ _ _ _ (w_lift_Ok server_url s1 s1 _ _ _ _ eq_refl)).
  rewrite (w_bind_Ok _ _ _ _ _
             (w_lift_Ok (gets (fun st => endpoints (api st))) s1 s1 _ _ _ _ eq_refl)).
  rewrite Heps, Hpath, Hurl. fold url.
  rewrite (w_bind_Ok _ _ _ _ _ (eq_refl : w_ret path _ = (Ok path, _))).
  rewrite (w_bind_Ok _ _ _ _ _ (w_emit_wrapped _ _ _ _ _)).
  rewrite (w_bind_Ok _ _ _ _ _ (w_lift_Ok (gets running_loop) s1 s1 _ _ _ _ eq_refl)).
  rewrite Hloop.
  destruct (running_loop (core st)) as [tasks|].
  - rewrite (w_bind_Ok _ _ _ _ _ (w_create_task_wrapped _ _ _ _ _)). reflexivity.
  - unfold run_until_complete.
    assert (forall k : unit -> W pyval,
      w_bind (w_bind (w_bind (w_lift (modify (block (send_takes url r))))
                        (fun _ => wrapper_send_telemetry w url r))
                (fun _ => w_emit (WWarned EventLoopNotRunning))) k
        (wrapped s1 ([] ++ [sending]) [] st) =
      match wrapper_failure (http_post w url r) with
      | Some e =>
          (Raise e, wrapped (block (send_takes url r) s1)
                      (sending :: wrapper_output url r (http_post w url r)) [] st)
      | None =>
          k tt (wrapped (block (send_takes url r) s1)
                  (sending :: wrapper_output url r (http_post w url r)
                   ++ [WWarned EventLoopNotRunning]) [] st)
      end) as Hrun.
    { intros k. unfold w_bind at 1 2 3. rewrite w_lift_wrapped. cbn [modify fst snd].
      rewrite wrapper_send_telemetry_run.
      destruct (wrapper_failure _) as [e|]; [reflexivity|].
      rewrite w_emit_wrapped. rewrite <- app_assoc. reflexivity. }
    rewrite Hrun. reflexivity.
Qed.

End DecoratorFacts.

(** The first record built in a new process, for a service nothing was
    configured for. *)
Lemma first_record (w : World) (eps : gmap string string) (loop : option (list Coroutine))
    (service_name function_name : string) (args kwargs : pyval) :
  let st := new_state eps loop in
  let r := base_record (getuser w) function_name args kwargs
             (PyStr (session_id_at w st)) in
  _create_telemetry_record w service_name function_name args kwargs st =
  (Ok r, with_api (set_last_record (Some r)) (cached (session_id_at w st) (tick st))).
Proof.
  intros st r.
  rewrite (create_record_run w st _ service_name function_name args kwargs _
             (SessionID_new_first w st eq_refl) eq_refl).
  unfold suppressed, built_record.
  change (_pop_fields (api st)) with (∅ : gmap string (list string)).
  change (_extra_fields (api st)) with ((fun _ => ∅) <$> eps : gmap string record).
  rewrite lookup_empty, lookup_fmap.
  assert (default ∅ ((fun _ : string => (∅ : record)) <$> eps !! service_name) = ∅) as ->
    by (destruct (eps !! service_name); reflexivity).
  rewrite (left_id_L ∅ (∪)). reflexivity.
Qed.

(** X11.  Decorating a function for a service that has no endpoint
    raises, ValidationError or KeyError, and changes nothing: the
    suppression list is not set and the function is not registered,
    whatever the register does. *)
Theorem decorator_refuses_unknown_service (register : string -> string -> M unit)
    (service : string) (extra_fields pop_fields : pyval) (name : string) (st : State) :
  service ∉ dom (endpoints (api st)) ->
  exists e,
    decorator register service extra_fields pop_fields name st = (Raise e, st) /\
    (e = ValidationError \/ e = KeyError (EndpointNotFound service)).
Proof.
  intros Hunknown. unfold decorator.
  assert (exists e,
    add_extra_fields service (py_or extra_fields (py_dict ∅)) st = (Raise e, st) /\
    (e = ValidationError \/ e = KeyError (EndpointNotFound service))) as (e & Hadd & He).
  { unfold add_extra_fields, validate_dict_str_any, bind, gets.
    destruct (py_or extra_fields (py_dict ∅)) as [| | | | | |d];
      try (eexists; split; [reflexivity | left; reflexivity]).
    destruct (str_keyed_items d);
      [|eexists; split; [reflexivity | left; reflexivity]].
    cbn. destruct (decide _); [contradiction|].
    eexists; split; [reflexivity | right; reflexivity]. }
  exists e. split; [|exact He]. apply bind_Raise, Hadd.
Qed.

Lemma decorator_refuses_unknown_service_witness :
  ("nope" ∉ dom (endpoints (api (new_state payu_endpoints None)))) /\
  exists e,
    decorator no_register "nope" PyNone (PyList [PyStr "session_id"]) "f"
      (new_state payu_endpoints None)
    = (Raise e, new_state payu_endpoints None) /\
    (e = ValidationError \/ e = KeyError (EndpointNotFound "nope")).
Proof.
  assert ("nope" ∉ dom (endpoints (api (new_state payu_endpoints None)))) as H.
  { cbn. unfold payu_endpoints. rewrite dom_singleton_L. intros Hin.
    apply elem_of_singleton in Hin. discriminate Hin. }
  split; [exact H|].
  exact (decorator_refuses_unknown_service no_register "nope" PyNone
           (PyList [PyStr "session_id"]) "f" (new_state payu_endpoints None) H).
Defined.

(** X12.  Decorating with extra_fields and pop_fields left out, or falsy,
    is not neutral: for a service that has an endpoint it replaces the
    overlay of the service by the empty dict and its suppression list by the
    empty list, and then registers the function. *)
Theorem decorator_defaults_reset_the_service (register : string -> string -> M unit)
    (service : string) (extra_fields pop_fields : pyval) (name : string) (st : State) :
  service ∈ dom (endpoints (api st)) ->
  py_not extra_fields = true ->
  py_not pop_fields = true ->
  decorator register service extra_fields pop_fields name st =
  register service name
    (with_api (fun h => set_pop_fields (<[service := []]> (_pop_fields h)) h)
       (with_api (fun h => set_extra_fields (<[service := ∅]> (_extra_fields h)) h) st)).
Proof.
  intros Hknown Hextra Hpops. unfold decorator, py_or. rewrite Hextra, Hpops.
  rewrite (bind_Ok _ _ _ _ _ (add_extra_fields_known service ∅ st Hknown)).
  rewrite (bind_Ok _ _ _ _ _ (remove_fields_list service [] _)).
  reflexivity.
Qed.

Lemma decorator_defaults_reset_the_service_witness :
  let st :=
    with_api (fun h => set_pop_fields (<["payu" := ["args"]]> (_pop_fields h)) h)
      (new_state payu_endpoints None) in
  suppressed st "payu" = ["args"] /\
  suppressed (snd (decorator no_register "payu" PyNone PyNone "f" st)) "payu" = [].
Proof.
  intros st. split; [reflexivity|].
  assert ("payu" ∈ dom (endpoints (api st))) as Hknown.
  { cbn. unfold payu_endpoints. rewrite dom_singleton_L. apply elem_of_singleton.
    reflexivity. }
  rewrite (decorator_defaults_reset_the_service no_register "payu" PyNone PyNone "f" st
             Hknown eq_refl eq_refl).
  reflexivity.
Defined.

(** X13.  The wrapper of register_func, called with no event loop
    running, lets the HTTPStatusError of a response outside 200..299 reach
    the caller: the decorated function is not run and no warning is given.
    The caller has been blocked for the time the send took. *)
Theorem wrapper_raises_on_error_status (w : World) (send_takes : string -> record -> N)
    (service name : string) (func : list pyval -> gmap string pyval -> M pyval)
    (args : list pyval) (kwargs : gmap string pyval)
    (st : Wrapped) (r : record) (s1 : State) (path : string) (status : Z) :
  running_loop (core st) = None ->
  endpoints (api (core st)) !! service = Some path ->
  _create_telemetry_record w service name (PyTuple args) (py_dict kwargs) (core st)
  = (Ok r, s1) ->
  http_post w (_server_url (api (core st)) ++ path) r = PostResponds status ->
  (status < 200 \/ 300 <= status)%Z ->
  wrapper w send_takes service name func args kwargs st =
  (Raise (HTTPStatusError status),
   wrapped (block (send_takes (_server_url (api (core st)) ++ path) r) s1)
     [WPrinted (SendingTelemetryDataTo (_server_url (api (core st)) ++ path));
      WPrinted (TelemetryData r);
      WPrinted (EndpointIs (_server_url (api (core st)) ++ path));
      WPrinted HeadersAre;
      WPosted (_server_url (api (core st)) ++ path) r] [] st).
Proof.
  intros Hloop Hpath Hbuild Hpost Hstatus.
  rewrite (wrapper_after_build w send_takes service name func args kwargs st r s1 path
             Hbuild Hpath).
  cbn zeta. rewrite Hloop, Hpost. unfold wrapper_failure, wrapper_output, is_success.
  destruct (Z.leb_spec 200 status), (Z.leb_spec status 299); try reflexivity; lia.
Qed.

Lemma wrapper_raises_on_error_status_witness :
  fst (wrapper not_found_world (fun _ _ => 250%N) "payu" "f" one [] ∅
         (fresh_wrapped None)) = Raise (HTTPStatusError 404).
Proof.
  pose proof (first_record not_found_world payu_endpoints None "payu" "f"
                (PyTuple []) (py_dict ∅)) as Hbuild.
  cbn zeta in Hbuild.
  assert (404 < 200 \/ 300 <= 404)%Z as Hstatus by lia.
  rewrite (wrapper_raises_on_error_status not_found_world (fun _ _ => 250%N)
             "payu" "f" one [] ∅ (fresh_wrapped None) _ _ "/payu/update" 404
             eq_refl eq_refl Hbuild eq_refl Hstatus).
  reflexivity.
Defined.

(** X14.  The wrapper of register_func, called with no event loop
    running, when the post raises a RequestError or is answered with a
    status in 200..299: the caller is blocked for the time the send takes,
    the RuntimeWarning that telemetry blocks execution is given after the
    send, and then the decorated function is run; its result, or its
    exception, is the wrapper's. *)
Theorem wrapper_blocks_without_loop (w : World) (send_takes : string -> record -> N)
    (service name : string) (func : list pyval -> gmap string pyval -> M pyval)
    (args : list pyval) (kwargs : gmap string pyval)
    (st : Wrapped) (r : record) (s1 : State) (path : string) :
  running_loop (core st) = None ->
  endpoints (api (core st)) !! service = Some path ->
  _create_telemetry_record w service name (PyTuple args) (py_dict kwargs) (core st)
  = (Ok r, s1) ->
  wrapper_failure (http_post w (_server_url (api (core st)) ++ path) r) = None ->
  exists s2,
    waited_ms s2 = (waited_ms (core st) + send_takes (_server_url (api (core st)) ++ path) r)%N /\
    trace s2 = trace (core st) /\
    wrapper w send_takes service name func args kwargs st =
    (fst (func args kwargs s2),
     wrapped (snd (func args kwargs s2))
       (WPrinted (SendingTelemetryDataTo (_server_url (api (core st)) ++ path))
        :: wrapper_output (_server_url (api (core st)) ++ path) r
             (http_post w (_server_url (api (core st)) ++ path) r)
        ++ [WWarned EventLoopNotRunning]) [] st).
Proof.
  intros Hloop Hpath Hbuild Hpost.
  destruct (create_record_frame w _ _ _ _ _ _ _ Hbuild)
    as (_ & _ & _ & _ & _ & _ & Htrace & Hwait & _).
  exists (block (send_takes (_server_url (api (core st)) ++ path) r) s1).
  split; [cbn; rewrite Hwait; reflexivity|]. split; [exact Htrace|].
  rewrite (wrapper_after_build w send_takes service name func args kwargs st r s1 path
             Hbuild Hpath).
  cbn zeta. rewrite Hloop, Hpost. apply w_lift_wrapped.
Qed.

Lemma wrapper_blocks_without_loop_witness :
  exists st',
    wrapper offline_world (fun _ _ => 250%N) "payu" "f" one [] ∅ (fresh_wrapped None)
    = (Ok (PyInt 1), st') /\
    waited_ms (core st') = 250%N /\
    last (wrapper_trace st') = Some (WWarned EventLoopNotRunning).
Proof.
  pose proof (first_record offline_world payu_endpoints None "payu" "f"
                (PyTuple []) (py_dict ∅)) as Hbuild.
  cbn zeta in Hbuild.
  destruct (wrapper_blocks_without_loop offline_world (fun _ _ => 250%N)
              "payu" "f" one [] ∅ (fresh_wrapped None) _ _ "/payu/update"
              eq_refl eq_refl Hbuild eq_refl) as (s2 & Hwait & _ & Hrun).
  eexists. split; [exact Hrun|]. split; [exact Hwait | reflexivity].
Defined.

(** X15.  The wrapper of register_func, called while an event loop is
    running, creates one task for its send on that loop, prints one line,
    does not post, warn or block, and then runs the decorated function; its
    result, or its exception, is the wrapper's. *)
Theorem wrapper_creates_a_task_on_the_running_loop (w : World)
    (send_takes : string -> record -> N)
    (service name : string) (func : list pyval -> gmap string pyval -> M pyval)
    (args : list pyval) (kwargs : gmap string pyval)
    (st : Wrapped) (r : record) (s1 : State) (path : string) (tasks : list Coroutine) :
  running_loop (core st) = Some tasks ->
  endpoints (api (core st)) !! service = Some path ->
  _create_telemetry_record w service name (PyTuple args) (py_dict kwargs) (core st)
  = (Ok r, s1) ->
  waited_ms s1 = waited_ms (core st) /\
  trace s1 = trace (core st) /\
  wrapper w send_takes service name func args kwargs st =
  (fst (func args kwargs s1),
   wrapped (snd (func args kwargs s1))
     [WPrinted (SendingTelemetryDataTo (_server_url (api (core st)) ++ path))]
     [coroutine (_server_url (api (core st)) ++ path) r] st).
Proof.
  intros Hloop Hpath Hbuild.
  destruct (create_record_frame w _ _ _ _ _ _ _ Hbuild)
    as (_ & _ & _ & _ & _ & _ & Htrace & Hwait & _).
  split; [exact Hwait|]. split; [exact Htrace|].
  rewrite (wrapper_after_build w send_takes service name func args kwargs st r s1 path
             Hbuild Hpath).
  cbn zeta. rewrite Hloop. apply w_lift_wrapped.
Qed.

Lemma wrapper_creates_a_task_on_the_running_loop_witness :
  exists st',
    wrapper offline_world (fun _ _ => 250%N) "payu" "f" one [] ∅
      (fresh_wrapped (Some []))
    = (Ok (PyInt 1), st') /\
    length (wrapper_tasks st') = 1 /\
    waited_ms (core st') = 0%N.
Proof.
  pose proof (first_record offline_world payu_endpoints (Some []) "payu" "f"
                (PyTuple []) (py_dict ∅)) as Hbuild.
  cbn zeta in Hbuild.
  destruct (wrapper_creates_a_task_on_the_running_loop offline_world (fun _ _ => 250%N)
              "payu" "f" one [] ∅ (fresh_wrapped (Some [])) _ _ "/payu/update" []
              eq_refl eq_refl Hbuild) as (_ & _ & Hrun).
  eexists. split; [exact Hrun|]. split; reflexivity.
Defined.

(** X16.  A function decorated with register_func for a service whose
    suppression list names a field twice, or a field that is neither a base
    key nor a key of the service's overlay, cannot be called: every call
    raises the KeyError of a field of that list before anything is printed,
    sent or scheduled, and the function itself is not run. *)
Theorem wrapper_raises_on_unbuildable_record (w : World)
    (send_takes : string -> record -> N)
    (service name : string) (func : list pyval -> gmap string pyval -> M pyval)
    (args : list pyval) (kwargs : gmap string pyval) (st : Wrapped) :
  ~ (NoDup (suppressed (core st) service) /\
     list_to_set (suppressed (core st) service) ⊆
       base_keys ∪ dom (default ∅ (_extra_fields (api (core st)) !! service))) ->
  exists field st',
    field ∈ suppressed (core st) service /\
    wrapper w send_takes service name func args kwargs st
    = (Raise (KeyError (MissingKey field)), st') /\
    wrapper_trace st' = wrapper_trace st /\
    wrapper_tasks st' = wrapper_tasks st /\
    trace (core st') = trace (core st) /\
    waited_ms (core st') = waited_ms (core st) /\
    _last_record (api (core st')) = _last_record (api (core st)).
Proof.
  intros Hbad.
  destruct (SessionID_new_total w (core st)) as (sid & s1 & Hsid & Hframe).
  pose proof (create_record_run w (core st) s1 service name (PyTuple args)
                (py_dict kwargs) sid Hsid (proj1 Hframe)) as Hrun.
  destruct (pop_each_cases (suppressed (core st) service)
              (built_record w (core st) service name (PyTuple args) (py_dict kwargs) sid))
    as [[Hnd Hin]|(before & field & after & Hsplit & Hnd & Hin & Habs)].
  - exfalso. apply Hbad. split; [exact Hnd|].
    rewrite <- (dom_built_record w (core st) service name (PyTuple args)
                  (py_dict kwargs) sid).
    intros k Hk. apply elem_of_list_to_set in Hk. apply elem_of_dom, Hin, Hk.
  - rewrite Hsplit, (pop_each_absent _ _ _ _ Hnd Hin Habs) in Hrun.
    exists field, (wrapped s1 [] [] st). split.
    { rewrite Hsplit. apply elem_of_app. right. left. }
    split.
    { unfold wrapper. rewrite <- (wrapped_nothing st) at 1.
      apply w_bind_Raise. rewrite w_lift_wrapped, Hrun. reflexivity. }
    destruct Hframe as (Hapi & _ & _ & Htrace & Hwait).
    cbn. rewrite !app_nil_r, Hapi. repeat split; assumption.
Qed.

Lemma wrapper_raises_on_unbuildable_record_witness :
  let st :=
    {| core := with_api (fun h => set_pop_fields (<["payu" := ["model"]]> (_pop_fields h)) h)
                 (new_state payu_endpoints None);
       wrapper_trace := []; wrapper_tasks := [] |} in
  exists field st',
    field ∈ suppressed (core st) "payu" /\
    wrapper offline_world (fun _ _ => 250%N) "payu" "f" one [] ∅ st
    = (Raise (KeyError (MissingKey field)), st') /\
    wrapper_trace st' = [].
Proof.
  intros st.
  destruct (wrapper_raises_on_unbuildable_record offline_world (fun _ _ => 250%N)
              "payu" "f" one [] ∅ st) as (field & st' & Hin & Hrun & Htrace & _).
  - intros [_ Hsub].
    assert ("model" ∉ base_keys ∪ dom (default (∅ : record)
              (_extra_fields (api (core st)) !! "payu"))) as Hmodel.
    { apply (proj1 (bool_decide_eq_false _)). reflexivity. }
    apply Hmodel, Hsub, elem_of_list_to_set. left.
  - exists field, st'. split; [exact Hin|]. split; [exact Hrun | exact Htrace].
Defined.

(** ** The server_url setter *)

(** X17.  Assigning server_url changes where later requests go and
    nothing else about them: with a loop running, a send after the
    assignment creates its task for the new URL followed by the service's
    path, with the record that would have been built without the
    assignment. *)
Theorem server_url_is_used_by_later_sends (w : World) (st st1 : State)
    (tasks : list Coroutine) (url : string)
    (service_name function_name : string) (args kwargs : pyval)
    (r : record) (path : string) :
  running_loop st = Some tasks ->
  endpoints (api st) !! service_name = Some path ->
  _create_telemetry_record w service_name function_name args kwargs st = (Ok r, st1) ->
  (set_url url ;; send_api_request w service_name function_name args kwargs) st =
  (Ok tt,
   set_running_loop (Some (tasks ++ [coroutine (url ++ path) r])%list)
     (with_api (set_server_url url) st1)).
Proof.
  intros Hloop Hpath Hrun.
  destruct (SessionID_new_total w st) as (sid & s1 & Hsid & Hframe).
  pose proof (SessionID_new_with_api w (set_server_url url) st s1 _ Hsid) as Hsid'.
  assert (_create_telemetry_record w service_name function_name args kwargs
            (with_api (set_server_url url) st)
          = (Ok r, with_api (set_server_url url) st1)) as Hrun'.
  { rewrite (create_record_run w _ _ _ _ _ _ sid Hsid')
      by (cbn; rewrite (proj1 Hframe); reflexivity).
    rewrite (create_record_run w st s1 _ _ _ _ sid Hsid (proj1 Hframe)) in Hrun.
    change (suppressed (with_api (set_server_url url) st) service_name)
      with (suppressed st service_name).
    change (built_record w (with_api (set_server_url url) st) service_name
              function_name args kwargs sid)
      with (built_record w st service_name function_name args kwargs sid).
    destruct (pop_each _ _) as [r'|e]; [|discriminate Hrun].
    injection Hrun as -> <-. reflexivity. }
  unfold set_url. rewrite (bind_Ok _ _ _ _ _ (eq_refl : modify _ st = (Ok tt, _))).
  rewrite (send_api_request_after_build w _ _ _ _ _ _ _ _ Hrun' Hpath).
  destruct (create_record_frame w _ _ _ _ _ _ _ Hrun) as (_ & _ & _ & _ & Hloop1 & _).
  apply send_in_loop_running. cbn. rewrite Hloop1. exact Hloop.
Qed.

Lemma server_url_is_used_by_later_sends_witness :
  exists r st1,
    (set_url "http://localhost:8000" ;;
     send_api_request offline_world "payu" "f" (PyList []) (py_dict ∅))
      (new_state payu_endpoints (Some [])) =
    (Ok tt,
     set_running_loop (Some [coroutine "http://localhost:8000/payu/update" r]) st1).
Proof.
  pose proof (first_record offline_world payu_endpoints (Some []) "payu" "f"
                (PyList []) (py_dict ∅)) as Hbuild.
  cbn zeta in Hbuild.
  eexists _, _.
  exact (server_url_is_used_by_later_sends offline_world
           (new_state payu_endpoints (Some [])) _ [] "http://localhost:8000"
           "payu" "f" (PyList []) (py_dict ∅) _ "/payu/update" eq_refl eq_refl Hbuild).
Defined.
